(** * PrintForge Studio customizer: the upload, placement and checkout handlers

    A shallow embedding of [src/App.tsx] (the [App] component): its React
    state, its event handlers and the conditions under which its controls are
    rendered, followed by the properties of the placement pipeline.

    - JavaScript numbers are binary64 floats ([PrimFloat.float]), so [NaN],
      the two zeros and out-of-range values are all present.
    - An [async] handler is a program of type [Async]: state setters, calls to
      the external collaborators ([processLogo], [analyzeDesign],
      [saveDesignToDatabase], the [FileReader]) and [try/catch/finally].
    - The JavaScript event loop is the function [step]: a user event starts a
      handler, which runs until its first [await]; a settled promise resumes
      the run that awaits it.  Several runs may be pending at once.
    - A user event reaches a handler only through a control that is rendered,
      and a range input hands its handler only values it can hold: within
      [min] and [max], on a multiple of [step] ([rendered], [selectable]). *)

From Stdlib Require Import Floats.PrimFloat Floats.FloatAxioms.
From Stdlib Require Import Bool ZArith NArith PeanoNat QArith Qround List String Lia.
Import ListNotations.

#[local] Close Scope Q_scope.
#[local] Open Scope string_scope.

(** ** Numbers *)

Abbreviation number := PrimFloat.float.

(** [Math.PI], the binary64 value closest to pi. *)
Definition Math_PI : number := 0x1.921fb54442d18p+1%float.

(** JavaScript truthiness of a number: [0], [-0] and [NaN] are falsy. *)
Definition truthy (v : number) : bool :=
  negb (PrimFloat.eqb v 0%float) && PrimFloat.eqb v v.

(** [v || d] where [v] is a number that may be missing ([undefined]/[null]). *)
Definition js_or (v : option number) (d : number) : number :=
  match v with
  | Some n => if truthy n then n else d
  | None => d
  end.

(** [lo <= v && v <= hi] on numbers. *)
Definition within (lo hi v : number) : bool :=
  PrimFloat.leb lo v && PrimFloat.leb v hi.

(** [lo <= v && v < hi] on numbers. *)
Definition within_open (lo hi v : number) : bool :=
  PrimFloat.leb lo v && PrimFloat.ltb v hi.

(** ** Data model *)

(** [LogoConfig] (declared in [./types]); the fields are those of the
    [useState] initialiser, lines 42-48. *)
Record LogoConfig : Type := mkLogoConfig {
  url : option string;
  x : number;
  y : number;
  scale : number;
  rotation : number
}.

(** Modelled from the spec: the declaration of [AnalysisResult] lives in
    [./types], which is not part of the sources at hand.  The fields are the
    ones the spec lists for the manufacturability verdict and the ones
    [App.tsx] reads; [recommendedScale] is "number or absent". *)
Record AnalysisResult : Type := mkAnalysisResult {
  isPrintable : bool;
  recommendedScale : option number;
  suggestedColors : list string;
  estimatedPrice : number;
  reasoning : string
}.

(** Truthiness of a value that is an object or [null]. *)
Definition isSome {A : Type} (o : option A) : bool :=
  match o with Some _ => true | None => false end.

(** [activeStep : 1 | 2 | 3 | 4]. *)
Inductive Step : Type := Step1 | Step2 | Step3 | Step4.

Definition step_number (s : Step) : N :=
  match s with Step1 => 1 | Step2 => 2 | Step3 => 3 | Step4 => 4 end.


(** [redirectStatus : 'idle' | 'saving' | 'redirecting']. *)
Inductive RedirectStatus : Type := idle | saving | redirecting.

(** [a === b] on redirect statuses. *)
Definition RedirectStatus_eqb (a b : RedirectStatus) : bool :=
  match a, b with
  | idle, idle | saving, saving | redirecting, redirecting => true
  | _, _ => false
  end.

(** What [e.target.files?.[0]] gives the upload handler: the byte length, the
    only attribute the handler itself reads. *)
Record File : Type := mkFile { size : N }.

(** The React state of [App], lines 42-54.  The admin dashboard state
    ([adminDesigns], [loadingAdmin]) is independent of the pipeline and left
    out; the component is modelled with [isAdmin = false]. *)
Record AppState : Type := mkAppState {
  logoConfig : LogoConfig;
  activeStep : Step;
  analysis : option AnalysisResult;
  fileError : option string;
  processingStatus : string;
  redirectStatus : RedirectStatus
}.

(** The initial values passed to [useState]. *)
Definition initialState : AppState :=
  {| logoConfig := {| url := None; x := 0; y := 0; scale := 30; rotation := 0 |};
     activeStep := Step1;
     analysis := None;
     fileError := None;
     processingStatus := "";
     redirectStatus := idle |}.

(** ** State setters *)

(** [setLogoConfig(prev => f(prev))]. *)
Definition updateLogoConfig (f : LogoConfig -> LogoConfig) (s : AppState) : AppState :=
  {| logoConfig := f (logoConfig s);
     activeStep := activeStep s;
     analysis := analysis s;
     fileError := fileError s;
     processingStatus := processingStatus s;
     redirectStatus := redirectStatus s |}.

(** [setLogoConfig(c)]. *)
Definition setLogoConfig (c : LogoConfig) : AppState -> AppState :=
  updateLogoConfig (fun _ => c).

Definition setActiveStep (n : Step) (s : AppState) : AppState :=
  {| logoConfig := logoConfig s;
     activeStep := n;
     analysis := analysis s;
     fileError := fileError s;
     processingStatus := processingStatus s;
     redirectStatus := redirectStatus s |}.

Definition setAnalysis (a : option AnalysisResult) (s : AppState) : AppState :=
  {| logoConfig := logoConfig s;
     activeStep := activeStep s;
     analysis := a;
     fileError := fileError s;
     processingStatus := processingStatus s;
     redirectStatus := redirectStatus s |}.

Definition setFileError (e : option string) (s : AppState) : AppState :=
  {| logoConfig := logoConfig s;
     activeStep := activeStep s;
     analysis := analysis s;
     fileError := e;
     processingStatus := processingStatus s;
     redirectStatus := redirectStatus s |}.

Definition setProcessingStatus (m : string) (s : AppState) : AppState :=
  {| logoConfig := logoConfig s;
     activeStep := activeStep s;
     analysis := analysis s;
     fileError := fileError s;
     processingStatus := m;
     redirectStatus := redirectStatus s |}.

Definition setRedirectStatus (r : RedirectStatus) (s : AppState) : AppState :=
  {| logoConfig := logoConfig s;
     activeStep := activeStep s;
     analysis := analysis s;
     fileError := fileError s;
     processingStatus := processingStatus s;
     redirectStatus := r |}.

(** The object spreads [{...prev, field: v}]. *)
Definition with_url (v : option string) (prev : LogoConfig) : LogoConfig :=
  {| url := v; x := x prev; y := y prev; scale := scale prev; rotation := rotation prev |}.

Definition with_x (v : number) (prev : LogoConfig) : LogoConfig :=
  {| url := url prev; x := v; y := y prev; scale := scale prev; rotation := rotation prev |}.

Definition with_y (v : number) (prev : LogoConfig) : LogoConfig :=
  {| url := url prev; x := x prev; y := v; scale := scale prev; rotation := rotation prev |}.

Definition with_scale (v : number) (prev : LogoConfig) : LogoConfig :=
  {| url := url prev; x := x prev; y := y prev; scale := v; rotation := rotation prev |}.

Definition with_rotation (v : number) (prev : LogoConfig) : LogoConfig :=
  {| url := url prev; x := x prev; y := y prev; scale := scale prev; rotation := v |}.

(** ** Asynchronous handlers *)

(** The reason a promise was rejected with, or an exception thrown. *)
Definition Error : Type := string.

(** How an awaited promise settles. *)
Inductive Outcome (A : Type) : Type :=
| Resolved (a : A)
| Rejected (e : Error).
Arguments Resolved {A} a.
Arguments Rejected {A} e.

(** The destination assigned to [window.location.href] by the checkout
    handler: the cart URL of the shop with its three query attributes.  The
    attributes are kept apart; URL encoding and the printing of the scale as
    [`${scale}mm`] are not modelled. *)
Record CartUrl : Type := mkCartUrl {
  attr_design_id : string;
  attr_colors : string;
  attr_scale_mm : number
}.

(** A handler body.  Every constructor but [Done] and [Throw] carries the rest
    of the body; the four calls that leave the component carry the
    continuation that runs when the call settles. *)
Inductive Async : Type :=
| Done
| Throw (e : Error)
| Update (f : AppState -> AppState) (k : Async)
| ConsoleError (e : Error) (k : Async)
| Navigate (href : CartUrl) (k : Async)
| ReadAsDataURL (file : File) (onload : string -> Async)
| AwaitProcessLogo (raw : string) (k : Outcome string -> Async)
| AwaitAnalyzeDesign (image : string) (k : Outcome AnalysisResult -> Async)
| AwaitSaveDesign (config : LogoConfig) (verdict : AnalysisResult)
    (k : Outcome string -> Async).

(** [await p]: a resolved promise gives its value to the rest of the body, a
    rejected one throws. *)
Definition await {A : Type} (k : A -> Async) (o : Outcome A) : Async :=
  match o with
  | Resolved a => k a
  | Rejected e => Throw e
  end.

(** [p; q]: [q] runs when [p] ends without throwing. *)
Fixpoint andThen (p q : Async) : Async :=
  match p with
  | Done => q
  | Throw e => Throw e
  | Update f k => Update f (andThen k q)
  | ConsoleError e k => ConsoleError e (andThen k q)
  | Navigate h k => Navigate h (andThen k q)
  | ReadAsDataURL file onload => ReadAsDataURL file (fun raw => andThen (onload raw) q)
  | AwaitProcessLogo raw k => AwaitProcessLogo raw (fun o => andThen (k o) q)
  | AwaitAnalyzeDesign image k => AwaitAnalyzeDesign image (fun o => andThen (k o) q)
  | AwaitSaveDesign c v k => AwaitSaveDesign c v (fun o => andThen (k o) q)
  end.

(** [try { body } catch (err) { handler err }]. *)
Fixpoint tryCatch (body : Async) (handler : Error -> Async) : Async :=
  match body with
  | Done => Done
  | Throw e => handler e
  | Update f k => Update f (tryCatch k handler)
  | ConsoleError e k => ConsoleError e (tryCatch k handler)
  | Navigate h k => Navigate h (tryCatch k handler)
  | ReadAsDataURL file onload => ReadAsDataURL file (fun raw => tryCatch (onload raw) handler)
  | AwaitProcessLogo raw k => AwaitProcessLogo raw (fun o => tryCatch (k o) handler)
  | AwaitAnalyzeDesign image k => AwaitAnalyzeDesign image (fun o => tryCatch (k o) handler)
  | AwaitSaveDesign c v k => AwaitSaveDesign c v (fun o => tryCatch (k o) handler)
  end.

(** [try { body } finally { cleanup }]: the cleanup runs on both exits, and an
    exception of the body is thrown again after it. *)
Fixpoint tryFinally (body cleanup : Async) : Async :=
  match body with
  | Done => cleanup
  | Throw e => andThen cleanup (Throw e)
  | Update f k => Update f (tryFinally k cleanup)
  | ConsoleError e k => ConsoleError e (tryFinally k cleanup)
  | Navigate h k => Navigate h (tryFinally k cleanup)
  | ReadAsDataURL file onload => ReadAsDataURL file (fun raw => tryFinally (onload raw) cleanup)
  | AwaitProcessLogo raw k => AwaitProcessLogo raw (fun o => tryFinally (k o) cleanup)
  | AwaitAnalyzeDesign image k => AwaitAnalyzeDesign image (fun o => tryFinally (k o) cleanup)
  | AwaitSaveDesign c v k => AwaitSaveDesign c v (fun o => tryFinally (k o) cleanup)
  end.

Declare Scope async_scope.
Delimit Scope async_scope with async.
Bind Scope async_scope with Async.
Notation "f ;; k" := (Update f k)
  (at level 100, k at level 200, right associativity) : async_scope.

#[local] Open Scope async_scope.

(** The upload limit of line 78, [5 * 1024 * 1024] bytes. *)
Definition MAX_UPLOAD_BYTES : N := 5 * 1024 * 1024.

(** The two messages [setFileError] is called with. *)
Definition MSG_TOO_LARGE : string := "File too large. Max 5MB.".
Definition MSG_SYSTEM_ERROR : string := "System Error: Could not verify design.".

(** The transform a freshly processed image is placed with, lines 94-100. *)
Definition freshLogoConfig (processedImage : string) : LogoConfig :=
  {| url := Some processedImage; x := 0; y := 0; scale := 30; rotation := 0 |}.

(** The parts of [reader.onload], lines 87-121, in the order of the text.
    After [analyzeDesign] resolves, lines 104-112: *)
Definition onVerdict (aiResult : AnalysisResult) : Async :=
  setAnalysis (Some aiResult) ;;
  if isPrintable aiResult
  then updateLogoConfig (with_scale (js_or (recommendedScale aiResult) 36)) ;;
       setActiveStep Step3 ;;
       Done
  else Done.

(** After [processLogo] resolves, lines 94-103. *)
Definition onProcessed (processedImage : string) : Async :=
  setLogoConfig (freshLogoConfig processedImage) ;;
  setProcessingStatus "AI optimizing scale & printability..." ;;
  AwaitAnalyzeDesign processedImage (await onVerdict).

(** The [try] block from its first line, lines 91-92. *)
Definition tryBlock (rawResult : string) : Async :=
  setProcessingStatus "Removing background & Centering..." ;;
  AwaitProcessLogo rawResult (await onProcessed).

(** The [catch] block, lines 114-117. *)
Definition catchBlock (err : Error) : Async :=
  ConsoleError err (
  setFileError (Some MSG_SYSTEM_ERROR) ;;
  setActiveStep Step1 ;;
  Done).

(** The [finally] block, lines 118-120. *)
Definition finallyBlock : Async :=
  setProcessingStatus "" ;; Done.

(** [try { body } catch (err) { ... } finally { ... }] of lines 90-120. *)
Definition guarded (body : Async) : Async :=
  tryFinally (tryCatch body catchBlock) finallyBlock.

(** [reader.onload], lines 87-121. *)
Definition onload (rawResult : string) : Async :=
  guarded (tryBlock rawResult).

(** [handleFileUpload], lines 74-123; the argument is [e.target.files?.[0]]. *)
Definition handleFileUpload (file : option File) : Async :=
  match file with
  | None => Done
  | Some file =>
      if (MAX_UPLOAD_BYTES <? size file)%N
      then setFileError (Some MSG_TOO_LARGE) ;; Done
      else setFileError None ;;
           setActiveStep Step2 ;;
           ReadAsDataURL file onload
  end.

(** [handleProceedToCheckout], lines 125-127. *)
Definition handleProceedToCheckout : Async :=
  setActiveStep Step4 ;; Done.

(** [resetUpload], lines 129-134. *)
Definition resetUpload : Async :=
  updateLogoConfig (with_url None) ;;
  setAnalysis None ;;
  setActiveStep Step1 ;;
  setRedirectStatus idle ;;
  Done.

(** [handleShopifyCheckout], lines 136-157.  The handler is a closure over the
    [analysis] and [logoConfig] of the render it was created in: [s].  A
    [logoConfig] is an object, so [!logoConfig] is always false.  First what
    follows [saveDesignToDatabase], lines 144-156: *)
Definition afterSave (s : AppState) (verdict : AnalysisResult)
    (designId : string) : Async :=
  setRedirectStatus redirecting ;;
  Navigate {| attr_design_id := designId;
              attr_colors := String.concat ", " (suggestedColors verdict);
              attr_scale_mm := scale (logoConfig s) |}
  Done.

Definition handleShopifyCheckout (s : AppState) : Async :=
  match analysis s with
  | None => Done
  | Some verdict =>
      setRedirectStatus saving ;;
      AwaitSaveDesign (logoConfig s) verdict (await (afterSave s verdict))
  end.

(** The [onChange] handlers of the four range inputs, lines 385-423; [v] is
    [parseFloat(e.target.value)]. *)
Definition onChangeX (v : number) : Async := updateLogoConfig (with_x v) ;; Done.
Definition onChangeY (v : number) : Async := updateLogoConfig (with_y v) ;; Done.
Definition onChangeScale (v : number) : Async := updateLogoConfig (with_scale v) ;; Done.
Definition onChangeRotation (v : number) : Async := updateLogoConfig (with_rotation v) ;; Done.

(** The [onClick] of "Back to Customization", line 503. *)
Definition backToCustomization : Async := setActiveStep Step3 ;; Done.

(** The [min] and [max] attributes of the four range inputs. *)
Definition OFFSET_MIN : number := (-15)%float.
Definition OFFSET_MAX : number := 15%float.
Definition SCALE_MIN : number := 5%float.
Definition SCALE_MAX : number := 39%float.
Definition ROTATION_MIN : number := 0%float.
Definition ROTATION_MAX : number := (Math_PI * 2)%float.

(** ** The range inputs *)

(** An [<input type="range">] with its [min], [max] and [step] attributes, as
    the decimal numbers they are written as. *)
Record RangeInput : Type := mkRangeInput {
  minAttr : Q;
  maxAttr : Q;
  stepAttr : Q
}.

(** The four sliders, lines 386, 392, 406 and 419.  The [max] of the rotation
    slider is [{Math.PI * 2}], which reaches the attribute as the string of
    that number. *)
Definition rangeX : RangeInput :=
  {| minAttr := (-15)%Q; maxAttr := 15%Q; stepAttr := 0.5%Q |}.
Definition rangeY : RangeInput :=
  {| minAttr := (-15)%Q; maxAttr := 15%Q; stepAttr := 0.5%Q |}.
Definition rangeScale : RangeInput :=
  {| minAttr := 5%Q; maxAttr := 39%Q; stepAttr := 1%Q |}.
Definition rangeRotation : RangeInput :=
  {| minAttr := 0%Q; maxAttr := 6.283185307179586%Q; stepAttr := 0.1%Q |}.

(** An integer as a number; exact below 2^53. *)
Fixpoint of_pos (p : positive) : number :=
  match p with
  | xH => 1%float
  | xO p' => (2 * of_pos p')%float
  | xI p' => (2 * of_pos p' + 1)%float
  end.

Definition of_Z (z : Z) : number :=
  match z with
  | Z0 => 0%float
  | Zpos p => of_pos p
  | Zneg p => (- of_pos p)%float
  end.

(** [parseFloat] of the decimal an input holds: the binary64 value closest
    to it.  One correctly rounded division gives it when numerator and
    denominator are below 2^53, as those of the four sliders are. *)
Definition parseFloat (q : Q) : number :=
  (of_Z (Qnum q) / of_Z (Zpos (Qden q)))%float.

(** The track of a slider: the values [min], [min + step], [min + 2 step], ...
    up to the last one that does not exceed [max]. *)
Definition lastStep (r : RangeInput) : Z :=
  Qfloor ((maxAttr r - minAttr r) / stepAttr r)%Q.

Definition valueAt (r : RangeInput) (k : Z) : Q :=
  (minAttr r + inject_Z k * stepAttr r)%Q.

Definition positions (r : RangeInput) : list Z :=
  map Z.of_nat (seq 0 (S (Z.to_nat (lastStep r)))).

(** What a range input makes of a value it is asked to take (the value
    sanitization of the range state): a value below [min] becomes [min], one
    above [max] becomes the last value of the track, and any other moves to
    the nearest value of the track, upwards when it is half-way between two. *)
Definition nearestStep (r : RangeInput) (q : Q) : Z :=
  Z.max 0 (Z.min (lastStep r)
             (Qfloor ((q - minAttr r) / stepAttr r + (1 # 2))%Q)).

Definition sanitize (r : RangeInput) (q : Q) : Q := valueAt r (nearestStep r q).

(** [parseFloat(e.target.value)] when the slider was asked for [q]. *)
Definition delivered (r : RangeInput) (q : Q) : number := parseFloat (sanitize r q).

(** The values an [onChange] of the slider can carry: those of its track. *)
Definition selectable (r : RangeInput) (v : number) : bool :=
  existsb (fun k => PrimFloat.Leibniz.eqb v (parseFloat (valueAt r k))) (positions r).

Arguments selectable r v : simpl never.

(** The whole transform lies in the ranges of the sliders: offsets in
    [-15, 15], scale in [5, 39], rotation from 0 to below 2 pi. *)
Definition inPrintBounds (c : LogoConfig) : bool :=
  within OFFSET_MIN OFFSET_MAX (x c) && within OFFSET_MIN OFFSET_MAX (y c)
  && within SCALE_MIN SCALE_MAX (scale c)
  && within_open ROTATION_MIN ROTATION_MAX (rotation c).

(** ** The event loop *)

(** A run that is suspended: what it waits for, and the rest of its body. *)
Inductive Task : Type :=
| Reading (file : File) (onload : string -> Async)
| ProcessingLogo (raw : string) (k : Outcome string -> Async)
| AnalyzingDesign (image : string) (k : Outcome AnalysisResult -> Async)
| SavingDesign (config : LogoConfig) (verdict : AnalysisResult)
    (k : Outcome string -> Async).

(** The table of the runs in flight: what each waits for, latest first, one
    entry per run. *)
Definition Pending : Type := list (nat * Task).

Fixpoint lookup (r : nat) (m : Pending) : option Task :=
  match m with
  | [] => None
  | (r', t) :: m' => if Nat.eqb r r' then Some t else lookup r m'
  end.

Fixpoint remove (r : nat) (m : Pending) : Pending :=
  match m with
  | [] => []
  | (r', t) :: m' => if Nat.eqb r r' then remove r m' else (r', t) :: remove r m'
  end.

Definition insert (r : nat) (t : Task) (m : Pending) : Pending :=
  (r, t) :: remove r m.

(** The component together with its environment.  [pending] maps the runs in
    flight to what they wait for; the keys are the event loop's own way of
    telling promises apart and are invisible to the handlers.  [uncaught]
    collects the exceptions no handler caught. *)
Record World : Type := mkWorld {
  app : AppState;
  pending : Pending;
  nextRun : nat;
  console : list Error;
  location : option CartUrl;
  uncaught : list Error
}.

(** The component with state [s] and nothing in flight. *)
Definition quiescent (s : AppState) : World :=
  {| app := s; pending := []; nextRun := 0; console := [];
     location := None; uncaught := [] |}.

Definition withApp (f : AppState -> AppState) (w : World) : World :=
  {| app := f (app w); pending := pending w; nextRun := nextRun w;
     console := console w; location := location w; uncaught := uncaught w |}.

Definition logError (e : Error) (w : World) : World :=
  {| app := app w; pending := pending w; nextRun := nextRun w;
     console := console w ++ [e]; location := location w; uncaught := uncaught w |}.

Definition navigate (h : CartUrl) (w : World) : World :=
  {| app := app w; pending := pending w; nextRun := nextRun w;
     console := console w; location := Some h; uncaught := uncaught w |}.

Definition escape (e : Error) (w : World) : World :=
  {| app := app w; pending := pending w; nextRun := nextRun w;
     console := console w; location := location w; uncaught := uncaught w ++ [e] |}.

Definition suspend (r : nat) (t : Task) (w : World) : World :=
  {| app := app w; pending := insert r t (pending w); nextRun := nextRun w;
     console := console w; location := location w; uncaught := uncaught w |}.

Definition resume (r : nat) (w : World) : World :=
  {| app := app w; pending := remove r (pending w); nextRun := nextRun w;
     console := console w; location := location w; uncaught := uncaught w |}.

Definition allocate (w : World) : World :=
  {| app := app w; pending := pending w; nextRun := S (nextRun w);
     console := console w; location := location w; uncaught := uncaught w |}.

(** Run [r] executes [p] up to its next suspension. *)
Fixpoint run (r : nat) (p : Async) (w : World) : World :=
  match p with
  | Done => w
  | Throw e => escape e w
  | Update f k => run r k (withApp f w)
  | ConsoleError e k => run r k (logError e w)
  | Navigate h k => run r k (navigate h w)
  | ReadAsDataURL file onload => suspend r (Reading file onload) w
  | AwaitProcessLogo raw k => suspend r (ProcessingLogo raw k) w
  | AwaitAnalyzeDesign image k => suspend r (AnalyzingDesign image k) w
  | AwaitSaveDesign c v k => suspend r (SavingDesign c v k) w
  end.

(** A user event starts a new run of its handler. *)
Definition invoke (p : Async) (w : World) : World :=
  run (nextRun w) p (allocate w).

(** What can happen to the component: the user acts on a control, or one of
    the pending calls of run [r] settles. *)
Inductive Event : Type :=
| FileInputChange (file : option File)
| RangeX (v : number)
| RangeY (v : number)
| RangeScale (v : number)
| RangeRotation (v : number)
| ClickProceed
| ClickReset
| ClickCheckout
| ClickBack
| ReaderLoaded (r : nat) (rawResult : string)
| ProcessLogoSettled (r : nat) (o : Outcome string)
| AnalyzeDesignSettled (r : nat) (o : Outcome AnalysisResult)
| SaveDesignSettled (r : nat) (o : Outcome string).

(** One turn of the event loop.  A settlement for a run that does not wait for
    it is not an event of this world and changes nothing. *)
Definition step (w : World) (e : Event) : World :=
  match e with
  | FileInputChange file => invoke (handleFileUpload file) w
  | RangeX v => invoke (onChangeX v) w
  | RangeY v => invoke (onChangeY v) w
  | RangeScale v => invoke (onChangeScale v) w
  | RangeRotation v => invoke (onChangeRotation v) w
  | ClickProceed => invoke handleProceedToCheckout w
  | ClickReset => invoke resetUpload w
  | ClickCheckout => invoke (handleShopifyCheckout (app w)) w
  | ClickBack => invoke backToCustomization w
  | ReaderLoaded r rawResult =>
      match lookup r (pending w) with
      | Some (Reading _ onload) => run r (onload rawResult) (resume r w)
      | _ => w
      end
  | ProcessLogoSettled r o =>
      match lookup r (pending w) with
      | Some (ProcessingLogo _ k) => run r (k o) (resume r w)
      | _ => w
      end
  | AnalyzeDesignSettled r o =>
      match lookup r (pending w) with
      | Some (AnalyzingDesign _ k) => run r (k o) (resume r w)
      | _ => w
      end
  | SaveDesignSettled r o =>
      match lookup r (pending w) with
      | Some (SavingDesign _ _ k) => run r (k o) (resume r w)
      | _ => w
      end
  end.

(** A sequence of turns. *)
Definition steps (w : World) (es : list Event) : World := fold_left step es w.

(** The run an event belongs to, for the settlements. *)
Definition run_of (e : Event) : option nat :=
  match e with
  | ReaderLoaded r _ | ProcessLogoSettled r _
  | AnalyzeDesignSettled r _ | SaveDesignSettled r _ => Some r
  | _ => None
  end.

(** ** What is rendered *)

(** [activeStep >= 3 && analysis], line 357: the customize and checkout card. *)
Definition customizeCardShown (s : AppState) : bool :=
  (3 <=? step_number (activeStep s))%N && isSome (analysis s).

(** The text of the "Adjustments Required" panel, lines 338-350, when it is
    rendered: [activeStep === 2 && analysis && !analysis.isPrintable] inside
    the card of line 305. *)
Definition verificationFailedText (s : AppState) : option string :=
  match activeStep s, analysis s with
  | Step2, Some a => if isPrintable a then None else Some (reasoning a)
  | _, _ => None
  end.

(** The red line of line 352, shown inside the card of line 305. *)
Definition fileErrorText (s : AppState) : option string :=
  match activeStep s with
  | Step1 | Step2 => fileError s
  | _ => None
  end.

(** Whether the control an event comes from is on the page (and enabled) in
    state [s], and can produce the event: a slider reports only values of its
    track.  Settlements come from the environment, not from a control. *)
Definition rendered (s : AppState) (e : Event) : bool :=
  match e with
  | FileInputChange _ => (step_number (activeStep s) =? 1)%N
  | RangeX v =>
      customizeCardShown s && (step_number (activeStep s) =? 3)%N
      && selectable rangeX v
  | RangeY v =>
      customizeCardShown s && (step_number (activeStep s) =? 3)%N
      && selectable rangeY v
  | RangeScale v =>
      customizeCardShown s && (step_number (activeStep s) =? 3)%N
      && selectable rangeScale v
  | RangeRotation v =>
      customizeCardShown s && (step_number (activeStep s) =? 3)%N
      && selectable rangeRotation v
  | ClickProceed =>
      customizeCardShown s && (step_number (activeStep s) =? 3)%N
  | ClickReset =>
      match verificationFailedText s with Some _ => true | None => false end
  | ClickCheckout =>
      customizeCardShown s && (step_number (activeStep s) =? 4)%N
      && RedirectStatus_eqb (redirectStatus s) idle
  | ClickBack => customizeCardShown s && (step_number (activeStep s) =? 4)%N
  | ReaderLoaded _ _ | ProcessLogoSettled _ _
  | AnalyzeDesignSettled _ _ | SaveDesignSettled _ _ => true
  end.

(** ** Scenarios *)

(** One upload from the file chooser to the verdict, as run [r]: the file is
    read, [processLogo] settles with [p], [analyzeDesign] settles with [a].
    When an earlier stage fails, the later settlements find no run waiting. *)
Definition uploadRun (r : nat) (file : File) (rawResult : string)
    (p : Outcome string) (a : Outcome AnalysisResult) : list Event :=
  [ FileInputChange (Some file);
    ReaderLoaded r rawResult;
    ProcessLogoSettled r p;
    AnalyzeDesignSettled r a ].

(** What an upload run waits for after the file is read and after the logo
    is processed: the rest of [onload], still inside its [try]. *)
Definition awaitingProcessLogo (rawResult : string) : Task :=
  ProcessingLogo rawResult (fun o => guarded (await onProcessed o)).

Definition awaitingAnalyzeDesign (processedImage : string) : Task :=
  AnalyzingDesign processedImage (fun o => guarded (await onVerdict o)).

(** The state once the logo is processed and [analyzeDesign] is awaited:
    lines 83-84, 91 and 94-102 applied in turn. *)
Definition processedState (processedImage : string) (s : AppState) : AppState :=
  setProcessingStatus "AI optimizing scale & printability..."
    (setLogoConfig (freshLogoConfig processedImage)
       (setProcessingStatus "Removing background & Centering..."
          (setActiveStep Step2 (setFileError None s)))).

(** What the [catch] and [finally] blocks leave behind. *)
Definition recovered (e : Error) (w : World) : World :=
  withApp (setProcessingStatus "")
    (withApp (setActiveStep Step1)
       (withApp (setFileError (Some MSG_SYSTEM_ERROR)) (logError e w))).

(** What lines 104-112 and the [finally] block do to the state. *)
Definition verdictApplied (v : AnalysisResult) (s : AppState) : AppState :=
  setProcessingStatus ""
    (if isPrintable v
     then setActiveStep Step3
            (updateLogoConfig (with_scale (js_or (recommendedScale v) 36))
               (setAnalysis (Some v) s))
     else setAnalysis (Some v) s).

(** What a checkout run waits for: the design being saved. *)
Definition awaitingSaveDesign (s : AppState) (verdict : AnalysisResult) : Task :=
  SavingDesign (logoConfig s) verdict (await (afterSave s verdict)).

(** The tasks of an upload run. *)
Inductive uploading : Task -> Prop :=
| uploading_reading (file : File) : uploading (Reading file onload)
| uploading_processing (raw : string) : uploading (awaitingProcessLogo raw)
| uploading_analyzing (image : string) : uploading (awaitingAnalyzeDesign image).

(** The worlds the page can be in: it starts in the initial state with
    nothing in flight; the user acts only on controls that are rendered, and
    pending calls settle in any order with any outcome. *)
Inductive reachable : World -> Prop :=
| reachable_initial : reachable (quiescent initialState)
| reachable_step (w : World) (e : Event) :
    reachable w -> rendered (app w) e = true -> reachable (step w e).


(** The events of a trace that are not settlements of run [r]. *)
Definition foreign (r : nat) (es : list Event) : Prop :=
  Forall (fun e => run_of e <> Some r) es.

(** ** Sample data for the concrete scenarios *)

Definition sampleFile : File := {| size := 204800 |}.

Definition hugeFile : File := {| size := 6 * 1024 * 1024 |}.

Definition verdict28 : AnalysisResult :=
  {| isPrintable := true; recommendedScale := Some 28%float;
     suggestedColors := ["#1d4ed8"; "#ffffff"]; estimatedPrice := 16.5%float;
     reasoning := "Bold shapes, two colors." |}.

Definition verdict0 : AnalysisResult :=
  {| isPrintable := true; recommendedScale := Some 0%float;
     suggestedColors := ["#1d4ed8"]; estimatedPrice := 15.5%float;
     reasoning := "Simple mark." |}.

Definition verdict100 : AnalysisResult :=
  {| isPrintable := true; recommendedScale := Some 100%float;
     suggestedColors := ["#000000"]; estimatedPrice := 15.5%float;
     reasoning := "Very large mark." |}.

Definition verdictNoScale : AnalysisResult :=
  {| isPrintable := true; recommendedScale := None;
     suggestedColors := ["#000000"]; estimatedPrice := 15.5%float;
     reasoning := "Fine." |}.

Definition verdictRejected : AnalysisResult :=
  {| isPrintable := false; recommendedScale := Some 20%float;
     suggestedColors := []; estimatedPrice := 0%float;
     reasoning := "Lines thinner than 0.4mm cannot be printed." |}.



(** The component after one accepted upload: step 3, sliders on the page. *)
Definition customizing : World :=
  steps (quiescent initialState)
    (uploadRun 0 sampleFile "data:raw" (Resolved "data:logo") (Resolved verdict28)).

(** ** The rest of the page *)

(** The spinner of lines 329-335: [activeStep === 2 && !analysis]. *)
Definition processingShown (s : AppState) : bool :=
  (step_number (activeStep s) =? 2)%N && negb (isSome (analysis s)).

(** The upload card of line 305: [activeStep === 1 || activeStep === 2]. *)
Definition uploadCardShown (s : AppState) : bool :=
  (step_number (activeStep s) =? 1)%N || (step_number (activeStep s) =? 2)%N.

(** The 3D viewer of line 272 replaces the "Preview area" placeholder when
    [logoConfig.url] is truthy: a string that is not empty. *)
Definition viewerShown (s : AppState) : bool :=
  match url (logoConfig s) with
  | Some u => negb (String.eqb u "")
  | None => false
  end.

(** A sequence of events the page itself can produce from [w]: each user
    event comes from a control that is rendered when it happens. *)
Fixpoint playable (w : World) (es : list Event) : bool :=
  match es with
  | [] => true
  | e :: es' => rendered (app w) e && playable (step w e) es'
  end.

Definition isCheckoutClick (e : Event) : bool :=
  match e with ClickCheckout => true | _ => false end.

Definition isSliderEdit (e : Event) : bool :=
  match e with
  | RangeX _ | RangeY _ | RangeScale _ | RangeRotation _ => true
  | _ => false
  end.

Definition isStepSwitch (e : Event) : bool :=
  match e with ClickProceed | ClickBack => true | _ => false end.

(** The phases of an upload run together with what the state holds in each:
    once [analyzeDesign] is awaited the transform is the fresh one of the
    processed image. *)
Inductive uploadPhase (s : AppState) : Task -> Prop :=
| phase_reading (file : File) : uploadPhase s (Reading file onload)
| phase_processing (raw : string) : uploadPhase s (awaitingProcessLogo raw)
| phase_analyzing (image : string) :
    logoConfig s = freshLogoConfig image ->
    uploadPhase s (awaitingAnalyzeDesign image).

(** The state behind the customize and checkout card. *)
Definition placed (s : AppState) : Prop :=
  (activeStep s = Step3 \/ activeStep s = Step4) /\
  (exists v, analysis s = Some v /\ isPrintable v = true) /\
  isSome (url (logoConfig s)) = true /\
  fileError s = None /\
  processingStatus s = "".



(** The five situations the page can be in: waiting for a file; an upload in
    flight; a refused design; a placed design; a checkout in flight. *)
Definition pageState (w : World) : Prop :=
  (pending w = [] /\ activeStep (app w) = Step1 /\ analysis (app w) = None
   /\ processingStatus (app w) = "" /\ redirectStatus (app w) = idle)
  \/ (exists r t, pending w = [(r, t)] /\ uploadPhase (app w) t
                  /\ activeStep (app w) = Step2 /\ analysis (app w) = None
                  /\ fileError (app w) = None /\ redirectStatus (app w) = idle)
  \/ (exists v img, pending w = [] /\ activeStep (app w) = Step2
                    /\ analysis (app w) = Some v /\ isPrintable v = false
                    /\ logoConfig (app w) = freshLogoConfig img
                    /\ fileError (app w) = None /\ processingStatus (app w) = ""
                    /\ redirectStatus (app w) = idle)
  \/ (pending w = [] /\ placed (app w))
  \/ (exists r s0 v, pending w = [(r, awaitingSaveDesign s0 v)]
                    /\ placed (app w) /\ redirectStatus (app w) = saving
                    /\ isPrintable v = true
                    /\ isSome (url (logoConfig s0)) = true).

(** ** What sequences of events leave behind *)

(** The last value a sequence of events supplies through [sel], or [d]. *)
Definition lastOf (sel : Event -> option number) (es : list Event) (d : number) : number :=
  fold_left (fun acc e => match sel e with Some v => v | None => acc end) es d.

Definition valueX (e : Event) : option number :=
  match e with RangeX v => Some v | _ => None end.
Definition valueY (e : Event) : option number :=
  match e with RangeY v => Some v | _ => None end.
Definition valueScale (e : Event) : option number :=
  match e with RangeScale v => Some v | _ => None end.
Definition valueRotation (e : Event) : option number :=
  match e with RangeRotation v => Some v | _ => None end.

(** The step the last of a sequence of "Proceed" and "Back" clicks leaves. *)
Definition lastSwitch (es : list Event) (d : Step) : Step :=
  fold_left (fun acc e => match e with
                          | ClickProceed => Step4
                          | ClickBack => Step3
                          | _ => acc
                          end) es d.

(** The cart URL [handleShopifyCheckout] navigates to. *)
Definition cartUrlOf (s : AppState) (verdict : AnalysisResult) (designId : string) : CartUrl :=
  {| attr_design_id := designId;
     attr_colors := String.concat ", " (suggestedColors verdict);
     attr_scale_mm := scale (logoConfig s) |}.

(** What the settlements of an upload run leave in [activeStep] and
    [fileError]. *)
Definition stepAfterRun (p : Outcome string) (a : Outcome AnalysisResult) : Step :=
  match p, a with
  | Resolved _, Resolved v => if isPrintable v then Step3 else Step2
  | _, _ => Step1
  end.

Definition errorAfterRun (p : Outcome string) (a : Outcome AnalysisResult) : option string :=
  match p, a with
  | Resolved _, Resolved _ => None
  | _, _ => Some MSG_SYSTEM_ERROR
  end.

(** The page while the first upload is being analysed, and with a refused
    design. *)
Definition analysing : World :=
  steps (quiescent initialState)
    [ FileInputChange (Some sampleFile); ReaderLoaded 0 "data:raw";
      ProcessLogoSettled 0 (Resolved "data:logo") ].

Definition refused : World :=
  steps (quiescent initialState)
    (uploadRun 0 sampleFile "data:raw" (Resolved "data:logo") (Resolved verdictRejected)).


(** A file of exactly the limit. *)
Definition fiveMiB : File := {| size := 5 * 1024 * 1024 |}.

(** The page at step 4, and after "Pay on Shopify" was clicked there. *)
Definition proceeded : World := steps customizing [ClickProceed].

Definition checkingOut : World := steps proceeded [ClickCheckout].

(** An upload whose verdict recommends a scale of 100, after which the user
    moves the X slider to 3. *)
Definition oversizedThenMoved : list Event :=
  (uploadRun 0 sampleFile "data:raw" (Resolved "data:logo") (Resolved verdict100)
   ++ [RangeX 3])%list.

(** One page session: a design is uploaded and placed, checkout is started,
    the user goes back and moves the scale slider, the save fails, and the
    user proceeds again. *)
Definition sessionUntilCheckout : list Event :=
  (uploadRun 0 sampleFile "data:raw" (Resolved "data:logo") (Resolved verdict28)
   ++ [ClickProceed; ClickCheckout])%list.

Definition sessionAfterCheckout : list Event :=
  [ClickBack; RangeScale 10; SaveDesignSettled 2 (Rejected "503"); ClickProceed].

(** ** Numbers: basic facts *)

Lemma number_neq (a b : number) :
  PrimFloat.eqb a b = false -> PrimFloat.eqb a a = true -> a <> b.
Proof. intros Hab Haa ->. rewrite Haa in Hab. discriminate. Qed.

Lemma truthy_examples :
  truthy 28 = true /\ truthy (-10) = true /\ truthy infinity = true /\
  truthy 0 = false /\ truthy (-0) = false /\ truthy nan = false.
Proof. repeat split. Qed.

Lemma js_or_absent (d : number) : js_or None d = d.
Proof. reflexivity. Qed.

Lemma js_or_truthy (n d : number) : truthy n = true -> js_or (Some n) d = n.
Proof. intros H. unfold js_or. rewrite H. reflexivity. Qed.

Lemma js_or_falsy (n d : number) : truthy n = false -> js_or (Some n) d = d.
Proof. intros H. unfold js_or. rewrite H. reflexivity. Qed.

(** ** The table of pending runs *)

Lemma lookup_remove_ne (r r' : nat) (m : Pending) :
  r <> r' -> lookup r (remove r' m) = lookup r m.
Proof.
  intros Hne. induction m as [ | [k t] m IH]; cbn [remove lookup].
  - reflexivity.
  - destruct (Nat.eqb_spec r' k) as [-> | Hk].
    + rewrite IH. destruct (Nat.eqb_spec r k) as [-> | _]; [ contradiction | reflexivity ].
    + cbn [lookup]. rewrite IH. reflexivity.
Qed.

Lemma lookup_remove_eq (r : nat) (m : Pending) : lookup r (remove r m) = None.
Proof.
  induction m as [ | [k t] m IH]; cbn [remove lookup].
  - reflexivity.
  - destruct (Nat.eqb_spec r k) as [-> | Hk]; [ exact IH | ].
    cbn [lookup]. destruct (Nat.eqb_spec r k) as [-> | _]; [ contradiction | exact IH ].
Qed.

Lemma lookup_insert_eq (r : nat) (t : Task) (m : Pending) :
  lookup r (insert r t m) = Some t.
Proof. unfold insert. cbn [lookup]. rewrite Nat.eqb_refl. reflexivity. Qed.

Lemma lookup_insert_ne (r r' : nat) (t : Task) (m : Pending) :
  r <> r' -> lookup r (insert r' t m) = lookup r m.
Proof.
  intros Hne. unfold insert. cbn [lookup].
  destruct (Nat.eqb_spec r r') as [-> | _]; [ contradiction | ].
  apply lookup_remove_ne. exact Hne.
Qed.

(** ** One turn of the event loop at a time *)

Lemma within_limit (file : File) :
  (size file <= MAX_UPLOAD_BYTES)%N -> (MAX_UPLOAD_BYTES <? size file)%N = false.
Proof. intros H. apply N.ltb_ge. exact H. Qed.

Lemma over_limit (file : File) :
  (MAX_UPLOAD_BYTES < size file)%N -> (MAX_UPLOAD_BYTES <? size file)%N = true.
Proof. intros H. apply N.ltb_lt. exact H. Qed.

Lemma pending_suspend (r : nat) (t : Task) (w : World) :
  lookup r (pending (suspend r t w)) = Some t.
Proof. cbn [pending suspend]. apply lookup_insert_eq. Qed.

(** An accepted file: the error is cleared, step 2 is shown, the read starts. *)
Lemma file_accepted_turn (w : World) (file : File) :
  (size file <= MAX_UPLOAD_BYTES)%N ->
  step w (FileInputChange (Some file)) =
  suspend (nextRun w) (Reading file onload)
    (withApp (setActiveStep Step2) (withApp (setFileError None) (allocate w))).
Proof.
  intros H. unfold step, invoke, handleFileUpload.
  rewrite (within_limit file H). reflexivity.
Qed.

(** An oversized file: only the error message is set. *)
Lemma file_refused_turn (w : World) (file : File) :
  (MAX_UPLOAD_BYTES < size file)%N ->
  step w (FileInputChange (Some file)) =
  withApp (setFileError (Some MSG_TOO_LARGE)) (allocate w).
Proof.
  intros H. unfold step, invoke, handleFileUpload.
  rewrite (over_limit file H). reflexivity.
Qed.

Lemma reader_loaded_turn (w : World) (r : nat) (file : File) (raw : string) :
  lookup r (pending w) = Some (Reading file onload) ->
  step w (ReaderLoaded r raw) =
  suspend r (awaitingProcessLogo raw)
    (withApp (setProcessingStatus "Removing background & Centering...") (resume r w)).
Proof. intros H. unfold step. rewrite H. reflexivity. Qed.

Lemma logo_processed_turn (w : World) (r : nat) (raw img : string) :
  lookup r (pending w) = Some (awaitingProcessLogo raw) ->
  step w (ProcessLogoSettled r (Resolved img)) =
  suspend r (awaitingAnalyzeDesign img)
    (withApp (setProcessingStatus "AI optimizing scale & printability...")
       (withApp (setLogoConfig (freshLogoConfig img)) (resume r w))).
Proof. intros H. unfold step. rewrite H. reflexivity. Qed.

Lemma logo_failed_turn (w : World) (r : nat) (raw : string) (e : Error) :
  lookup r (pending w) = Some (awaitingProcessLogo raw) ->
  step w (ProcessLogoSettled r (Rejected e)) = recovered e (resume r w).
Proof. intros H. unfold step. rewrite H. reflexivity. Qed.

Lemma verdict_turn (w : World) (r : nat) (img : string) (v : AnalysisResult) :
  lookup r (pending w) = Some (awaitingAnalyzeDesign img) ->
  step w (AnalyzeDesignSettled r (Resolved v)) =
  withApp (verdictApplied v) (resume r w).
Proof.
  intros H. unfold step. rewrite H.
  unfold awaitingAnalyzeDesign, verdictApplied, guarded, onVerdict.
  cbn [await].
  destruct (isPrintable v); reflexivity.
Qed.

Lemma analysis_failed_turn (w : World) (r : nat) (img : string) (e : Error) :
  lookup r (pending w) = Some (awaitingAnalyzeDesign img) ->
  step w (AnalyzeDesignSettled r (Rejected e)) = recovered e (resume r w).
Proof. intros H. unfold step. rewrite H. reflexivity. Qed.

(** ** A whole upload run *)

Lemma upload_until_processed (w : World) (file : File) (raw img : string) :
  (size file <= MAX_UPLOAD_BYTES)%N ->
  steps w [ FileInputChange (Some file); ReaderLoaded (nextRun w) raw;
            ProcessLogoSettled (nextRun w) (Resolved img) ] =
  suspend (nextRun w) (awaitingAnalyzeDesign img)
    (withApp (fun _ => processedState img (app w))
       (resume (nextRun w)
          (suspend (nextRun w) (awaitingProcessLogo raw)
             (resume (nextRun w)
                (suspend (nextRun w) (Reading file onload) (allocate w)))))).
Proof.
  intros Hsize. unfold steps. cbn [fold_left].
  rewrite (file_accepted_turn w file Hsize).
  rewrite (reader_loaded_turn _ _ file) by apply pending_suspend.
  rewrite (logo_processed_turn _ _ raw) by apply pending_suspend.
  reflexivity.
Qed.

Lemma upload_run_verdict (w : World) (file : File) (raw img : string)
    (v : AnalysisResult) :
  (size file <= MAX_UPLOAD_BYTES)%N ->
  app (steps w (uploadRun (nextRun w) file raw (Resolved img) (Resolved v))) =
  verdictApplied v (processedState img (app w)).
Proof.
  intros Hsize. unfold uploadRun.
  change (app (step (steps w [ FileInputChange (Some file);
                               ReaderLoaded (nextRun w) raw;
                               ProcessLogoSettled (nextRun w) (Resolved img) ])
                 (AnalyzeDesignSettled (nextRun w) (Resolved v))) =
          verdictApplied v (processedState img (app w))).
  rewrite (upload_until_processed w file raw img Hsize).
  rewrite (verdict_turn _ _ img) by apply pending_suspend.
  reflexivity.
Qed.

Lemma upload_run_analysis_failed (w : World) (file : File) (raw img : string)
    (e : Error) :
  (size file <= MAX_UPLOAD_BYTES)%N ->
  app (steps w (uploadRun (nextRun w) file raw (Resolved img) (Rejected e))) =
  setProcessingStatus ""
    (setActiveStep Step1
       (setFileError (Some MSG_SYSTEM_ERROR) (processedState img (app w)))).
Proof.
  intros Hsize. unfold uploadRun.
  change (app (step (steps w [ FileInputChange (Some file);
                               ReaderLoaded (nextRun w) raw;
                               ProcessLogoSettled (nextRun w) (Resolved img) ])
                 (AnalyzeDesignSettled (nextRun w) (Rejected e))) =
          setProcessingStatus ""
            (setActiveStep Step1
               (setFileError (Some MSG_SYSTEM_ERROR)
                  (processedState img (app w))))).
  rewrite (upload_until_processed w file raw img Hsize).
  rewrite (analysis_failed_turn _ _ img) by apply pending_suspend.
  reflexivity.
Qed.

Lemma sampleFile_within_limit : (size sampleFile <= MAX_UPLOAD_BYTES)%N.
Proof. vm_compute. discriminate. Qed.

(** ** The range inputs: what a slider can report *)

Lemma positions_in (r : RangeInput) (k : Z) :
  (0 <= k <= lastStep r)%Z -> In k (positions r).
Proof.
  intros Hk. unfold positions. apply in_map_iff.
  exists (Z.to_nat k). split; [ apply Z2Nat.id; lia | ].
  apply in_seq. lia.
Qed.

Lemma nearestStep_in (r : RangeInput) (q : Q) :
  (0 <= lastStep r)%Z -> In (nearestStep r q) (positions r).
Proof. intros Hr. apply positions_in. unfold nearestStep. lia. Qed.

Lemma selectable_track (r : RangeInput) (k : Z) :
  In k (positions r) -> selectable r (parseFloat (valueAt r k)) = true.
Proof.
  intros Hk. unfold selectable. apply existsb_exists.
  exists k. split; [ exact Hk | ]. apply Leibniz.eqb_spec. reflexivity.
Qed.

Lemma selectable_inv (r : RangeInput) (v : number) :
  selectable r v = true ->
  exists k, In k (positions r) /\ v = parseFloat (valueAt r k).
Proof.
  unfold selectable. intros H. apply existsb_exists in H.
  destruct H as (k & Hk & Heq). exists k. split; [ exact Hk | ].
  apply Leibniz.eqb_spec. exact Heq.
Qed.

(** What holds of every value of the track holds of every value the slider
    reports. *)
Lemma on_track (P : number -> bool) (r : RangeInput) :
  forallb (fun k => P (parseFloat (valueAt r k))) (positions r) = true ->
  forall v, selectable r v = true -> P v = true.
Proof.
  intros Hall v Hv. destruct (selectable_inv r v Hv) as (k & Hk & ->).
  rewrite forallb_forall in Hall. exact (Hall k Hk).
Qed.

(** The slider reports what it made of the request. *)
Lemma delivered_selectable (r : RangeInput) (q : Q) :
  (0 <= lastStep r)%Z -> selectable r (delivered r q) = true.
Proof. intros Hr. apply selectable_track, nearestStep_in, Hr. Qed.

Lemma trackX_within :
  forallb (fun k => within OFFSET_MIN OFFSET_MAX (parseFloat (valueAt rangeX k)))
    (positions rangeX) = true.
Proof. vm_compute. reflexivity. Qed.

Lemma trackY_within :
  forallb (fun k => within OFFSET_MIN OFFSET_MAX (parseFloat (valueAt rangeY k)))
    (positions rangeY) = true.
Proof. vm_compute. reflexivity. Qed.

Lemma trackScale_within :
  forallb (fun k => within SCALE_MIN SCALE_MAX (parseFloat (valueAt rangeScale k)))
    (positions rangeScale) = true.
Proof. vm_compute. reflexivity. Qed.

(** The last value of the rotation track is 6.2, below [Math.PI * 2]. *)
Lemma trackRotation_within :
  forallb (fun k => within_open ROTATION_MIN ROTATION_MAX
                      (parseFloat (valueAt rangeRotation k)))
    (positions rangeRotation) = true.
Proof. vm_compute. reflexivity. Qed.

(** The attributes are the bounds of the ranges, as numbers. *)
Lemma range_attributes :
  parseFloat (minAttr rangeX) = OFFSET_MIN /\ parseFloat (maxAttr rangeX) = OFFSET_MAX /\
  parseFloat (minAttr rangeY) = OFFSET_MIN /\ parseFloat (maxAttr rangeY) = OFFSET_MAX /\
  parseFloat (minAttr rangeScale) = SCALE_MIN /\
  parseFloat (maxAttr rangeScale) = SCALE_MAX /\
  parseFloat (minAttr rangeRotation) = ROTATION_MIN /\
  parseFloat (maxAttr rangeRotation) = ROTATION_MAX /\
  lastStep rangeX = 60%Z /\ lastStep rangeY = 60%Z /\
  lastStep rangeScale = 34%Z /\ lastStep rangeRotation = 62%Z.
Proof. vm_compute. repeat split. Qed.

(** What the sliders make of some requests: out-of-range values go to the end
    of the track, values between two steps to the nearest one, half-way
    values upwards. *)
Lemma delivered_examples :
  delivered rangeScale 100 = 39%float /\
  delivered rangeScale (-10) = 5%float /\
  delivered rangeScale 20.4 = 20%float /\
  delivered rangeScale 20.5 = 21%float /\
  delivered rangeX 100 = 15%float /\
  delivered rangeX (-3.25) = (-3)%float /\
  delivered rangeY (-100) = (-15)%float /\
  delivered rangeRotation 7 = parseFloat 6.2 /\
  delivered rangeRotation 0.15 = parseFloat 0.2.
Proof. vm_compute. repeat split. Qed.

Lemma slider_turn (w : World) (v : number) :
  step w (RangeX v) = withApp (updateLogoConfig (with_x v)) (allocate w) /\
  step w (RangeY v) = withApp (updateLogoConfig (with_y v)) (allocate w) /\
  step w (RangeScale v) = withApp (updateLogoConfig (with_scale v)) (allocate w) /\
  step w (RangeRotation v) = withApp (updateLogoConfig (with_rotation v)) (allocate w).
Proof. repeat split. Qed.

Lemma rendered_slider (s : AppState) (r : RangeInput) (v : number) :
  customizeCardShown s && (step_number (activeStep s) =? 3)%N && selectable r v = true ->
  selectable r v = true.
Proof. intros H. apply andb_prop in H. exact (proj2 H). Qed.

(** ** C1: editing the placement transform *)

(** C1, as the page has it.  An edit of the transform reaches the component
    through one of the four range inputs, and a range input reports only
    values of its track: whatever it is asked for, it hands
    [parseFloat(e.target.value)] to its handler clamped to [min, max] and
    rounded to its [step].  The handler stores that value in the edited field
    and changes nothing else, and clamps nothing itself.  So after every edit
    the edited field lies in its range: offsets in [-15, 15], scale in
    [5, 39], rotation from 0 to below 2 pi; a scale slider asked for 100
    gives scale 39, asked for -10 gives scale 5, whatever the state before.
    The three other fields keep their values: the whole transform lies in its
    ranges after an edit when it did before. *)
Theorem slider_edits_keep_the_edited_field_in_range :
  (forall (w : World) (q : Q),
     selectable rangeX (delivered rangeX q) = true /\
     selectable rangeY (delivered rangeY q) = true /\
     selectable rangeScale (delivered rangeScale q) = true /\
     selectable rangeRotation (delivered rangeRotation q) = true /\
     within OFFSET_MIN OFFSET_MAX
       (x (logoConfig (app (step w (RangeX (delivered rangeX q)))))) = true /\
     within OFFSET_MIN OFFSET_MAX
       (y (logoConfig (app (step w (RangeY (delivered rangeY q)))))) = true /\
     within SCALE_MIN SCALE_MAX
       (scale (logoConfig (app (step w (RangeScale (delivered rangeScale q)))))) = true /\
     within_open ROTATION_MIN ROTATION_MAX
       (rotation (logoConfig (app (step w (RangeRotation (delivered rangeRotation q))))))
     = true) /\
  (forall w : World,
     scale (logoConfig (app (step w (RangeScale (delivered rangeScale 100))))) = 39%float /\
     scale (logoConfig (app (step w (RangeScale (delivered rangeScale (-10)))))) = 5%float) /\
  (forall (w : World) (v : number),
     (rendered (app w) (RangeX v) = true ->
      within OFFSET_MIN OFFSET_MAX v = true /\
      app (step w (RangeX v)) = updateLogoConfig (with_x v) (app w)) /\
     (rendered (app w) (RangeY v) = true ->
      within OFFSET_MIN OFFSET_MAX v = true /\
      app (step w (RangeY v)) = updateLogoConfig (with_y v) (app w)) /\
     (rendered (app w) (RangeScale v) = true ->
      within SCALE_MIN SCALE_MAX v = true /\
      app (step w (RangeScale v)) = updateLogoConfig (with_scale v) (app w)) /\
     (rendered (app w) (RangeRotation v) = true ->
      within_open ROTATION_MIN ROTATION_MAX v = true /\
      app (step w (RangeRotation v)) = updateLogoConfig (with_rotation v) (app w))) /\
  (forall (w : World) (e : Event),
     isSliderEdit e = true ->
     rendered (app w) e = true ->
     inPrintBounds (logoConfig (app w)) = true ->
     inPrintBounds (logoConfig (app (step w e))) = true).
Proof.
  assert (forall q, within OFFSET_MIN OFFSET_MAX (delivered rangeX q) = true) as Hx.
  { intros q. apply (on_track _ rangeX trackX_within).
    apply delivered_selectable. vm_compute. discriminate. }
  assert (forall q, within OFFSET_MIN OFFSET_MAX (delivered rangeY q) = true) as Hy.
  { intros q. apply (on_track _ rangeY trackY_within).
    apply delivered_selectable. vm_compute. discriminate. }
  assert (forall q, within SCALE_MIN SCALE_MAX (delivered rangeScale q) = true) as Hs.
  { intros q. apply (on_track _ rangeScale trackScale_within).
    apply delivered_selectable. vm_compute. discriminate. }
  assert (forall q, within_open ROTATION_MIN ROTATION_MAX (delivered rangeRotation q)
                    = true) as Hr.
  { intros q. apply (on_track _ rangeRotation trackRotation_within).
    apply delivered_selectable. vm_compute. discriminate. }
  split; [ | split; [ | split ] ].
  - intros w q.
    repeat (split; [ apply delivered_selectable; vm_compute; discriminate | ]).
    split; [ apply Hx | ]. split; [ apply Hy | ]. split; [ apply Hs | apply Hr ].
  - intros w. split; reflexivity.
  - intros w v.
    split; [ | split; [ | split ] ]; intros Hrendered;
      cbn [rendered] in Hrendered; apply rendered_slider in Hrendered;
      (split; [ | reflexivity ]).
    + exact (on_track _ rangeX trackX_within v Hrendered).
    + exact (on_track _ rangeY trackY_within v Hrendered).
    + exact (on_track _ rangeScale trackScale_within v Hrendered).
    + exact (on_track _ rangeRotation trackRotation_within v Hrendered).
  - intros w e He Hrendered Hbounds.
    unfold inPrintBounds in Hbounds |- *.
    apply andb_prop in Hbounds. destruct Hbounds as [Hbounds Hrot].
    apply andb_prop in Hbounds. destruct Hbounds as [Hbounds Hscale].
    apply andb_prop in Hbounds. destruct Hbounds as [Hbx Hby].
    destruct e as [file | v | v | v | v | | | | | r raw | r o | r o | r o];
      try discriminate He; cbn [rendered] in Hrendered;
      apply rendered_slider in Hrendered;
      destruct (slider_turn w v) as (Tx & Ty & Ts & Tr);
      rewrite ?Tx, ?Ty, ?Ts, ?Tr;
      cbn [app withApp allocate updateLogoConfig logoConfig
           with_x with_y with_scale with_rotation x y scale rotation].
    + rewrite (on_track _ rangeX trackX_within v Hrendered), Hby, Hscale, Hrot.
      reflexivity.
    + rewrite (on_track _ rangeY trackY_within v Hrendered), Hbx, Hscale, Hrot.
      reflexivity.
    + rewrite (on_track _ rangeScale trackScale_within v Hrendered), Hbx, Hby, Hrot.
      reflexivity.
    + rewrite (on_track _ rangeRotation trackRotation_within v Hrendered),
        Hbx, Hby, Hscale.
      reflexivity.
Qed.

Lemma customizing_offers_scale_12 :
  rendered (app customizing) (RangeScale 12) = true.
Proof. vm_compute. reflexivity. Qed.

Lemma slider_edits_keep_the_edited_field_in_range_witness :
  rendered (app customizing) (RangeScale 12) = true /\
  within SCALE_MIN SCALE_MAX 12 = true /\
  app (step customizing (RangeScale 12))
  = updateLogoConfig (with_scale 12) (app customizing).
Proof.
  split; [ exact customizing_offers_scale_12 | ].
  exact (proj1 (proj2 (proj2
    (proj1 (proj2 (proj2 slider_edits_keep_the_edited_field_in_range))
       customizing 12%float))) customizing_offers_scale_12).
Defined.

(** C1 fails as stated: the verdict of an upload recommends 100 and the scale
    becomes 100; the user then moves the X slider to 3.  After this edit the
    offset is 3 and the scale is still 100, outside [5, 39]. *)
Lemma edit_leaves_an_oversized_scale_in_place :
  playable (quiescent initialState) oversizedThenMoved = true /\
  x (logoConfig (app (steps (quiescent initialState) oversizedThenMoved))) = 3%float /\
  scale (logoConfig (app (steps (quiescent initialState) oversizedThenMoved))) = 100%float /\
  within SCALE_MIN SCALE_MAX
    (scale (logoConfig (app (steps (quiescent initialState) oversizedThenMoved)))) = false /\
  inPrintBounds (logoConfig (app (steps (quiescent initialState) oversizedThenMoved)))
  = false.
Proof. vm_compute. repeat split. Qed.

(** ** C2, C3, C4: applying the verdict *)

(** C2, as the code has it.  An accepted upload whose verdict is printable
    ends at step 3 with the verdict stored, offsets (0, 0), rotation 0 and
    scale [recommendedScale || 36]: the recommended scale when it is a number
    other than 0 and NaN, and 36 when it is absent, 0 or NaN.  This holds from
    every state, the initial one included. *)
Theorem printable_verdict_places_the_logo (w : World) (file : File)
    (raw img : string) (v : AnalysisResult) :
  (size file <= MAX_UPLOAD_BYTES)%N ->
  isPrintable v = true ->
  let s' := app (steps w (uploadRun (nextRun w) file raw (Resolved img) (Resolved v))) in
  activeStep s' = Step3 /\
  analysis s' = Some v /\
  url (logoConfig s') = Some img /\
  x (logoConfig s') = 0%float /\
  y (logoConfig s') = 0%float /\
  rotation (logoConfig s') = 0%float /\
  scale (logoConfig s') = js_or (recommendedScale v) 36 /\
  (recommendedScale v = None -> scale (logoConfig s') = 36%float) /\
  (forall n, recommendedScale v = Some n -> truthy n = true ->
             scale (logoConfig s') = n) /\
  (forall n, recommendedScale v = Some n -> truthy n = false ->
             scale (logoConfig s') = 36%float).
Proof.
  intros Hsize Hprintable s'. subst s'.
  rewrite (upload_run_verdict w file raw img v Hsize).
  unfold verdictApplied. rewrite Hprintable. cbn.
  repeat split.
  - intros ->. reflexivity.
  - intros n -> Hn. apply js_or_truthy, Hn.
  - intros n -> Hn. apply js_or_falsy, Hn.
Qed.

Lemma printable_verdict_places_the_logo_witness :
  (size sampleFile <= MAX_UPLOAD_BYTES)%N /\
  isPrintable verdict28 = true /\
  isPrintable verdictNoScale = true /\
  scale (logoConfig (app (steps (quiescent initialState)
    (uploadRun 0 sampleFile "data:raw" (Resolved "data:logo") (Resolved verdict28)))))
  = 28%float /\
  scale (logoConfig (app (steps (quiescent initialState)
    (uploadRun 0 sampleFile "data:raw" (Resolved "data:logo") (Resolved verdictNoScale)))))
  = 36%float.
Proof.
  split; [ vm_compute; discriminate | ].
  split; [ reflexivity | ]. split; [ reflexivity | ].
  destruct (printable_verdict_places_the_logo (quiescent initialState)
              sampleFile "data:raw" "data:logo" verdict28
              sampleFile_within_limit eq_refl)
    as (_ & _ & _ & _ & _ & _ & _ & _ & Hscale & _).
  destruct (printable_verdict_places_the_logo (quiescent initialState)
              sampleFile "data:raw" "data:logo" verdictNoScale
              sampleFile_within_limit eq_refl)
    as (_ & _ & _ & _ & _ & _ & _ & Habsent & _).
  split; [ apply Hscale; reflexivity | apply Habsent; reflexivity ].
Defined.

(** C2 fails as stated: a printable verdict whose recommended scale is present
    and equal to 0, applied to the initial state, gives scale 36, not 0. *)
Lemma zero_recommendation_is_replaced :
  recommendedScale verdict0 = Some 0%float /\
  scale (logoConfig (app (steps (quiescent initialState)
    (uploadRun 0 sampleFile "data:raw" (Resolved "data:logo") (Resolved verdict0)))))
  = 36%float /\
  PrimFloat.eqb
    (scale (logoConfig (app (steps (quiescent initialState)
       (uploadRun 0 sampleFile "data:raw" (Resolved "data:logo") (Resolved verdict0))))))
    0 = false /\
  Some (scale (logoConfig (app (steps (quiescent initialState)
       (uploadRun 0 sampleFile "data:raw" (Resolved "data:logo") (Resolved verdict0))))))
  <> recommendedScale verdict0.
Proof.
  vm_compute. repeat split.
  intros H.
  apply (f_equal (fun o => match o with Some n => n | None => 0%float end)) in H.
  revert H. apply number_neq; reflexivity.
Qed.

(** C3, as the code has it.  The recommended scale of a printable verdict is
    stored unclamped whenever it is a number other than 0 and NaN, so the
    scale after the verdict lies in [5, 39] exactly when the recommendation
    does; only an absent, zero or NaN recommendation is replaced, by 36, which
    lies in the range. *)
Theorem recommendation_is_applied_unclamped (w : World) (file : File)
    (raw img : string) (v : AnalysisResult) :
  (size file <= MAX_UPLOAD_BYTES)%N ->
  isPrintable v = true ->
  let s' := app (steps w (uploadRun (nextRun w) file raw (Resolved img) (Resolved v))) in
  (forall n, recommendedScale v = Some n -> truthy n = true ->
             scale (logoConfig s') = n) /\
  within SCALE_MIN SCALE_MAX (scale (logoConfig s')) =
  match recommendedScale v with
  | Some n => if truthy n then within SCALE_MIN SCALE_MAX n else true
  | None => true
  end.
Proof.
  intros Hsize Hprintable s'. subst s'.
  rewrite (upload_run_verdict w file raw img v Hsize).
  unfold verdictApplied. rewrite Hprintable. cbn.
  split.
  - intros n -> Hn. apply js_or_truthy, Hn.
  - destruct (recommendedScale v) as [n|]; cbn; [ | reflexivity ].
    destruct (truthy n); reflexivity.
Qed.

Lemma recommendation_is_applied_unclamped_witness :
  (size sampleFile <= MAX_UPLOAD_BYTES)%N /\
  isPrintable verdict28 = true /\
  within SCALE_MIN SCALE_MAX
    (scale (logoConfig (app (steps (quiescent initialState)
       (uploadRun 0 sampleFile "data:raw" (Resolved "data:logo") (Resolved verdict28))))))
  = true.
Proof.
  split; [ vm_compute; discriminate | split; [ reflexivity | ] ].
  exact (proj2 (recommendation_is_applied_unclamped (quiescent initialState)
                  sampleFile "data:raw" "data:logo" verdict28
                  sampleFile_within_limit eq_refl)).
Defined.

(** C3 fails as stated: a printable verdict that recommends 100 leaves the
    scale at 100, outside [5, 39]. *)
Lemma recommendation_100_is_not_clamped :
  scale (logoConfig (app (steps (quiescent initialState)
    (uploadRun 0 sampleFile "data:raw" (Resolved "data:logo") (Resolved verdict100)))))
  = 100%float /\
  within SCALE_MIN SCALE_MAX
    (scale (logoConfig (app (steps (quiescent initialState)
       (uploadRun 0 sampleFile "data:raw" (Resolved "data:logo") (Resolved verdict100))))))
  = false.
Proof. vm_compute. split; reflexivity. Qed.

(** C4.  When the verdict of an accepted upload is not printable, the step
    stays at 2 (the customize card and its sliders are not rendered), the
    transform is the one the processed image was placed with (scale 30, the
    recommendation is not applied), and the "Adjustments Required" panel shows
    the reasoning of the verdict, character for character, with its
    "Upload a different file" button. *)
Theorem unprintable_verdict_halts_before_placement (w : World) (file : File)
    (raw img : string) (v : AnalysisResult) :
  (size file <= MAX_UPLOAD_BYTES)%N ->
  isPrintable v = false ->
  let s' := app (steps w (uploadRun (nextRun w) file raw (Resolved img) (Resolved v))) in
  activeStep s' = Step2 /\
  logoConfig s' = freshLogoConfig img /\
  scale (logoConfig s') = 30%float /\
  analysis s' = Some v /\
  verificationFailedText s' = Some (reasoning v) /\
  customizeCardShown s' = false /\
  (forall n, rendered s' (RangeX n) = false /\ rendered s' (RangeY n) = false /\
             rendered s' (RangeScale n) = false /\
             rendered s' (RangeRotation n) = false) /\
  rendered s' ClickProceed = false /\
  rendered s' ClickCheckout = false /\
  rendered s' ClickReset = true.
Proof.
  intros Hsize Hprintable s'. subst s'.
  rewrite (upload_run_verdict w file raw img v Hsize).
  unfold verdictApplied. rewrite Hprintable.
  unfold verificationFailedText, rendered, customizeCardShown. cbn.
  rewrite Hprintable. repeat split.
Qed.

Lemma unprintable_verdict_halts_before_placement_witness :
  (size sampleFile <= MAX_UPLOAD_BYTES)%N /\
  isPrintable verdictRejected = false /\
  verificationFailedText (app (steps (quiescent initialState)
    (uploadRun 0 sampleFile "data:raw" (Resolved "data:logo") (Resolved verdictRejected))))
  = Some "Lines thinner than 0.4mm cannot be printed.".
Proof.
  split; [ vm_compute; discriminate | split; [ reflexivity | ] ].
  destruct (unprintable_verdict_halts_before_placement (quiescent initialState)
              sampleFile "data:raw" "data:logo" verdictRejected
              sampleFile_within_limit eq_refl)
    as (_ & _ & _ & _ & Htext & _).
  exact Htext.
Defined.

(** ** C5: the upload limit *)

(** C5.  A file longer than 5 MiB is refused with the message "File too
    large. Max 5MB.": that message is the only change.  The step, the
    transform, the verdict, the processing status and the redirect status are
    untouched, no read, processing or analysis is started, nothing is logged
    and nothing escapes. *)
Theorem oversized_upload_is_refused (w : World) (file : File) :
  (MAX_UPLOAD_BYTES < size file)%N ->
  let w' := step w (FileInputChange (Some file)) in
  fileError (app w') = Some "File too large. Max 5MB." /\
  app w' = setFileError (Some MSG_TOO_LARGE) (app w) /\
  activeStep (app w') = activeStep (app w) /\
  logoConfig (app w') = logoConfig (app w) /\
  analysis (app w') = analysis (app w) /\
  processingStatus (app w') = processingStatus (app w) /\
  redirectStatus (app w') = redirectStatus (app w) /\
  pending w' = pending w /\
  console w' = console w /\
  location w' = location w /\
  uncaught w' = uncaught w /\
  (rendered (app w) (FileInputChange (Some file)) = true ->
   fileErrorText (app w') = Some "File too large. Max 5MB.").
Proof.
  intros Hsize w'. subst w'.
  rewrite (file_refused_turn w file Hsize).
  repeat (split; [ reflexivity | ]).
  cbn [rendered]. unfold fileErrorText. cbn.
  destruct (activeStep (app w)); cbn; intros H; first [ reflexivity | discriminate H ].
Qed.

Lemma oversized_upload_is_refused_witness :
  (MAX_UPLOAD_BYTES < size hugeFile)%N /\
  fileErrorText (app (step (quiescent initialState) (FileInputChange (Some hugeFile))))
  = Some "File too large. Max 5MB." /\
  activeStep (app (step (quiescent initialState) (FileInputChange (Some hugeFile))))
  = Step1 /\
  pending (step (quiescent initialState) (FileInputChange (Some hugeFile))) = [].
Proof.
  split; [ reflexivity | ].
  destruct (oversized_upload_is_refused (quiescent initialState) hugeFile eq_refl)
    as (_ & _ & Hstep & _ & _ & _ & _ & Hpending & _ & _ & _ & Htext).
  split; [ exact (Htext eq_refl) | ].
  split; [ exact Hstep | exact Hpending ].
Defined.

(** ** C6 and C10: reset *)

Lemma reset_turn (w : World) :
  step w ClickReset =
  withApp (setRedirectStatus idle)
    (withApp (setActiveStep Step1)
       (withApp (setAnalysis None)
          (withApp (updateLogoConfig (with_url None)) (allocate w)))).
Proof. reflexivity. Qed.

(** C6.  From every state, whatever the transform was edited to, a reset
    followed by an accepted upload with a printable verdict ends at step 3
    with offsets (0, 0) and rotation 0. *)
Theorem reset_then_printable_upload_is_default_placed (w : World) (file : File)
    (raw img : string) (v : AnalysisResult) :
  (size file <= MAX_UPLOAD_BYTES)%N ->
  isPrintable v = true ->
  let w1 := step w ClickReset in
  let s' := app (steps w1 (uploadRun (nextRun w1) file raw (Resolved img) (Resolved v))) in
  activeStep s' = Step3 /\
  x (logoConfig s') = 0%float /\
  y (logoConfig s') = 0%float /\
  rotation (logoConfig s') = 0%float /\
  url (logoConfig s') = Some img /\
  analysis s' = Some v.
Proof.
  intros Hsize Hprintable w1 s'. subst s'.
  rewrite (upload_run_verdict w1 file raw img v Hsize).
  unfold verdictApplied. rewrite Hprintable. repeat split.
Qed.

Lemma reset_then_printable_upload_is_default_placed_witness :
  (size sampleFile <= MAX_UPLOAD_BYTES)%N /\
  isPrintable verdict28 = true /\
  x (logoConfig (app (steps customizing [RangeX 7; RangeRotation 3]))) = 7%float /\
  x (logoConfig (app (steps (step (steps customizing [RangeX 7; RangeRotation 3]) ClickReset)
       (uploadRun 4 sampleFile "data:raw2" (Resolved "data:logo2") (Resolved verdict28)))))
  = 0%float.
Proof.
  split; [ vm_compute; discriminate | ].
  split; [ reflexivity | ].
  split; [ vm_compute; reflexivity | ].
  destruct (reset_then_printable_upload_is_default_placed
              (steps customizing [RangeX 7; RangeRotation 3])
              sampleFile "data:raw2" "data:logo2" verdict28
              sampleFile_within_limit eq_refl)
    as (_ & Hx & _).
  vm_compute in Hx. vm_compute. exact Hx.
Defined.

(** C10.  [resetUpload] sets the image URL to [null], the verdict to [null],
    the step to 1 and the redirect status to idle, and nothing else: x, y,
    scale and rotation keep their values (and so do the file error and the
    processing status).  They still have them when the next upload is being
    read and processed; the processed image of that upload replaces them by
    the defaults (0, 0, 30, 0). *)
Theorem reset_keeps_the_transform (w : World) (file : File) (raw img : string) :
  let s := app w in
  let w1 := step w ClickReset in
  let r := nextRun w1 in
  url (logoConfig (app w1)) = None /\
  analysis (app w1) = None /\
  activeStep (app w1) = Step1 /\
  redirectStatus (app w1) = idle /\
  x (logoConfig (app w1)) = x (logoConfig s) /\
  y (logoConfig (app w1)) = y (logoConfig s) /\
  scale (logoConfig (app w1)) = scale (logoConfig s) /\
  rotation (logoConfig (app w1)) = rotation (logoConfig s) /\
  fileError (app w1) = fileError s /\
  processingStatus (app w1) = processingStatus s /\
  pending w1 = pending w /\
  location w1 = location w /\
  ((size file <= MAX_UPLOAD_BYTES)%N ->
   logoConfig (app (steps w1 [FileInputChange (Some file); ReaderLoaded r raw]))
   = logoConfig (app w1) /\
   logoConfig (app (steps w1 [FileInputChange (Some file); ReaderLoaded r raw;
                              ProcessLogoSettled r (Resolved img)]))
   = {| url := Some img; x := 0; y := 0; scale := 30; rotation := 0 |}).
Proof.
  intros s w1 r. subst s r.
  repeat (split; [ reflexivity | ]).
  intros Hsize. split.
  - unfold steps. cbn [fold_left].
    rewrite (file_accepted_turn w1 file Hsize).
    rewrite (reader_loaded_turn _ _ file) by apply pending_suspend.
    reflexivity.
  - rewrite (upload_until_processed w1 file raw img Hsize). reflexivity.
Qed.

Lemma reset_keeps_the_transform_witness :
  (size sampleFile <= MAX_UPLOAD_BYTES)%N /\
  scale (logoConfig (app (step customizing ClickReset))) = 28%float /\
  scale (logoConfig (app (steps (step customizing ClickReset)
    [FileInputChange (Some sampleFile); ReaderLoaded 2 "data:raw2";
     ProcessLogoSettled 2 (Resolved "data:logo2")]))) = 30%float.
Proof.
  split; [ vm_compute; discriminate | ].
  destruct (reset_keeps_the_transform customizing sampleFile "data:raw2" "data:logo2")
    as (_ & _ & _ & _ & _ & _ & Hscale & _ & _ & _ & _ & _ & Hnext).
  destruct (Hnext sampleFile_within_limit) as [_ Hfresh].
  apply (f_equal scale) in Hfresh.
  vm_compute in Hscale, Hfresh. vm_compute.
  split; [ exact Hscale | exact Hfresh ].
Defined.

(** ** C9: a failed analysis *)

(** C9.  When [analyzeDesign] fails after [processLogo] has succeeded, the
    handler shows "System Error: Could not verify design.", goes back to
    step 1 and clears the processing status, and the transform stays the one
    of this run: the processed image with offsets (0, 0), scale 30 and
    rotation 0.  Nothing puts the earlier transform back; the verdict of the
    state is the one from before the run. *)
Theorem failed_analysis_keeps_the_processed_logo (w : World) (file : File)
    (raw img : string) (e : Error) :
  (size file <= MAX_UPLOAD_BYTES)%N ->
  let s' := app (steps w (uploadRun (nextRun w) file raw (Resolved img) (Rejected e))) in
  fileError s' = Some "System Error: Could not verify design." /\
  fileErrorText s' = Some "System Error: Could not verify design." /\
  activeStep s' = Step1 /\
  processingStatus s' = "" /\
  logoConfig s' = {| url := Some img; x := 0; y := 0; scale := 30; rotation := 0 |} /\
  analysis s' = analysis (app w) /\
  redirectStatus s' = redirectStatus (app w).
Proof.
  intros Hsize s'. subst s'.
  rewrite (upload_run_analysis_failed w file raw img e Hsize).
  repeat split.
Qed.

Lemma failed_analysis_keeps_the_processed_logo_witness :
  (size sampleFile <= MAX_UPLOAD_BYTES)%N /\
  url (logoConfig (app customizing)) = Some "data:logo" /\
  logoConfig (app (steps customizing
    (uploadRun 1 sampleFile "data:raw2" (Resolved "data:logo2") (Rejected "503"))))
  = {| url := Some "data:logo2"; x := 0; y := 0; scale := 30; rotation := 0 |}.
Proof.
  split; [ vm_compute; discriminate | ].
  split; [ vm_compute; reflexivity | ].
  destruct (failed_analysis_keeps_the_processed_logo customizing sampleFile
              "data:raw2" "data:logo2" "503" sampleFile_within_limit)
    as (_ & _ & _ & _ & Hlogo & _).
  vm_compute in Hlogo. vm_compute. exact Hlogo.
Defined.

(** ** C8: overlapping uploads *)

(** A run writes only its own entry of [pending], and no run allocates. *)
Lemma run_nextRun (r : nat) (p : Async) :
  forall w, nextRun (run r p w) = nextRun w.
Proof.
  induction p as [ | e | f k IH | e k IH | h k IH | file k _ | raw k _
                 | image k _ | c v k _ ]; intros w; cbn [run];
    try reflexivity; rewrite IH; reflexivity.
Qed.

Lemma run_pending_other (r r' : nat) (p : Async) :
  r <> r' -> forall w, lookup r (pending (run r' p w)) = lookup r (pending w).
Proof.
  intros Hne.
  induction p as [ | e | f k IH | e k IH | h k IH | file k _ | raw k _
                 | image k _ | c v k _ ]; intros w; cbn [run];
    try reflexivity;
    try (rewrite IH; reflexivity);
    cbn [pending suspend]; apply lookup_insert_ne; exact Hne.
Qed.

Lemma invoke_pending_older (r : nat) (p : Async) (w : World) :
  r < nextRun w -> lookup r (pending (invoke p w)) = lookup r (pending w).
Proof.
  intros Hlt. unfold invoke.
  rewrite run_pending_other by lia. reflexivity.
Qed.

Lemma invoke_nextRun (p : Async) (w : World) :
  nextRun (invoke p w) = S (nextRun w).
Proof. unfold invoke. rewrite run_nextRun. reflexivity. Qed.

Lemma resumed_pending_other (r r' : nat) (p : Async) (w : World) :
  r <> r' -> lookup r (pending (run r' p (resume r' w))) = lookup r (pending w).
Proof.
  intros Hne. rewrite run_pending_other by exact Hne.
  cbn [pending resume]. apply lookup_remove_ne. exact Hne.
Qed.

Lemma resumed_nextRun (r' : nat) (p : Async) (w : World) :
  nextRun (run r' p (resume r' w)) = nextRun w.
Proof. rewrite run_nextRun. reflexivity. Qed.

(** Run identifiers only grow. *)
Lemma step_nextRun (w : World) (e : Event) :
  nextRun w <= nextRun (step w e).
Proof.
  destruct e as [file | v | v | v | v | | | | | r raw | r o | r o | r o];
    cbn [step]; try (rewrite invoke_nextRun; lia);
    destruct (lookup r (pending w)) as [[] | ]; try lia;
    rewrite resumed_nextRun; lia.
Qed.

(** A turn that is not a settlement of run [r] leaves what [r] waits for. *)
Lemma step_foreign (w : World) (e : Event) (r : nat) :
  r < nextRun w -> run_of e <> Some r ->
  lookup r (pending (step w e)) = lookup r (pending w).
Proof.
  intros Hlt Hforeign.
  destruct e as [file | v | v | v | v | | | | | r' raw | r' o | r' o | r' o];
    cbn [step]; try (apply invoke_pending_older; exact Hlt);
    cbn [run_of] in Hforeign;
    (assert (r <> r') as Hne by congruence);
    destruct (lookup r' (pending w)) as [[] | ]; try reflexivity;
    apply resumed_pending_other; exact Hne.
Qed.

Lemma steps_foreign (es : list Event) (r : nat) :
  foreign r es -> forall w, r < nextRun w ->
  lookup r (pending (steps w es)) = lookup r (pending w) /\ r < nextRun (steps w es).
Proof.
  unfold foreign, steps.
  induction 1 as [ | e es He _ IH]; intros w Hlt; cbn [fold_left].
  - split; [ reflexivity | exact Hlt ].
  - pose proof (step_nextRun w e) as Hmono.
    destruct (IH (step w e)) as [Hpending Hnext]; [ lia | ].
    split; [ | exact Hnext ].
    rewrite Hpending. apply step_foreign; assumption.
Qed.

Lemma suspend_nextRun_accepted (w : World) (file : File) :
  (size file <= MAX_UPLOAD_BYTES)%N ->
  nextRun w < nextRun (step w (FileInputChange (Some file))) /\
  lookup (nextRun w) (pending (step w (FileInputChange (Some file))))
  = Some (Reading file onload).
Proof.
  intros Hsize. rewrite (file_accepted_turn w file Hsize).
  split; [ cbn; lia | apply pending_suspend ].
Qed.

Lemma steps_app (w : World) (es es' : list Event) :
  steps w (es ++ es') = steps (steps w es) es'.
Proof. unfold steps. apply fold_left_app. Qed.

Lemma steps_cons (w : World) (e : Event) (es : list Event) :
  steps w (e :: es) = steps (step w e) es.
Proof. reflexivity. Qed.

Lemma steps_snoc (w : World) (es : list Event) (e : Event) :
  steps w (es ++ [e]) = step (steps w es) e.
Proof. rewrite steps_app. reflexivity. Qed.

(** *** The page itself never starts a second upload *)

Lemma lookup_single (r' r : nat) (t : Task) :
  lookup r' [(r, t)] = if Nat.eqb r' r then Some t else None.
Proof. reflexivity. Qed.

Lemma insert_single (r : nat) (t0 t : Task) :
  insert r t (remove r [(r, t0)]) = [(r, t)].
Proof. unfold insert. cbn [remove]. rewrite Nat.eqb_refl. reflexivity. Qed.

Lemma remove_single (r : nat) (t0 : Task) : remove r [(r, t0)] = [].
Proof. cbn [remove]. rewrite Nat.eqb_refl. reflexivity. Qed.












(** ** The page, state by state *)

(** Close a goal of one of the five situations. *)
Ltac page_facts :=
  repeat first
    [ reflexivity | assumption | discriminate
    | split
    | eexists
    | apply phase_reading | apply phase_processing
    | (apply phase_analyzing; reflexivity)
    | (left; reflexivity) | (right; reflexivity) ].

Ltac page_mode :=
  unfold pageState, placed; cbn;
  first [ solve [ left; page_facts ]
        | solve [ right; left; page_facts ]
        | solve [ right; right; left; page_facts ]
        | solve [ right; right; right; left; page_facts ]
        | solve [ right; right; right; right; page_facts ] ].

Lemma page_state_step (w : World) (e : Event) :
  pageState w -> rendered (app w) e = true -> pageState (step w e).
Proof.
  destruct w as [[lc st an fe ps rd] p n c l u].
  intros Hpage Hr.
  unfold pageState, placed in Hpage.
  cbn [app pending activeStep analysis redirectStatus processingStatus
       fileError logoConfig] in Hpage.
  destruct Hpage as
    [ (-> & -> & -> & -> & ->)
    | [ (r & t & -> & Ht & -> & -> & -> & ->)
    | [ (v & img & -> & -> & -> & Hv & -> & -> & -> & ->)
    | [ (-> & Hstep & (v & -> & Hv) & Hurl & -> & ->)
      | (r & s0 & v0 & -> & (Hstep & (v & -> & Hv) & Hurl & -> & ->) & -> & Hv0 & Hurl0) ] ] ] ].
  - (* waiting for a file *)
    destruct e as [[file | ] | x | x | x | x | | | | | r raw | r o | r o | r o];
      cbn in Hr; try discriminate Hr; try (page_mode; fail).
    cbn [step]. unfold invoke, handleFileUpload.
    destruct (MAX_UPLOAD_BYTES <? size file)%N; page_mode.
  - (* an upload in flight *)
    destruct e as [[file | ] | x | x | x | x | | | | | r' raw | r' o | r' o | r' o];
      cbn in Hr; try discriminate Hr.
    all: cbn [step pending]; rewrite lookup_single.
    all: destruct (Nat.eqb_spec r' r) as [-> | Hne];
      [ | right; left; exists r, t; cbn; repeat split; assumption ].
    all: destruct Ht as [file | raw0 | image Hfresh];
      cbn [awaitingProcessLogo awaitingAnalyzeDesign];
      try (right; left; eexists _, _; cbn; repeat split;
           first [ reflexivity | constructor; assumption | constructor ]; fail).
    all: unfold pageState.
    + (* the file is read *)
      cbn. rewrite Nat.eqb_refl. page_mode.
    + (* processLogo settles *)
      destruct o as [img | err]; cbn; rewrite Nat.eqb_refl; page_mode.
    + (* analyzeDesign settles *)
      cbn in Hfresh. subst lc.
      destruct o as [v | err]; cbn;
        [ destruct (isPrintable v) eqn:Hv; cbn | ];
        rewrite Nat.eqb_refl; page_mode.
  - (* a refused design *)
    destruct e as [[file | ] | x | x | x | x | | | | | r raw | r o | r o | r o];
      cbn in Hr; try rewrite Hv in Hr; try discriminate Hr; try (page_mode; fail).
  - (* a placed design *)
    destruct e as [[file | ] | x | x | x | x | | | | | r raw | r o | r o | r o];
      destruct Hstep as [-> | ->]; cbn in Hr; try discriminate Hr;
      try (page_mode; fail).
    (* checkout is started: the run holds the state of the click *)
    destruct rd; try discriminate Hr.
    do 4 right.
    exists n, (mkAppState lc Step4 (Some v) None "" idle), v.
    unfold placed. cbn. page_facts.
  - (* a checkout in flight *)
    destruct e as [[file | ] | x | x | x | x | | | | | r' raw | r' o | r' o | r' o];
      destruct Hstep as [-> | ->]; cbn in Hr; try discriminate Hr;
      try (page_mode; fail).
    all: cbn [step pending]; rewrite lookup_single.
    all: destruct (Nat.eqb_spec r' r) as [-> | Hne]; try (page_mode; fail).
    all: unfold pageState; destruct o as [designId | err]; cbn;
      rewrite Nat.eqb_refl; page_mode.
Qed.

Lemma page_state_initial : pageState (quiescent initialState).
Proof. left. repeat split. Qed.

Lemma reachable_page_state (w : World) : reachable w -> pageState w.
Proof.
  induction 1 as [ | w e _ IH Hr].
  - exact page_state_initial.
  - apply page_state_step; assumption.
Qed.

Lemma reachable_steps (es : list Event) :
  forall w, reachable w -> playable w es = true -> reachable (steps w es).
Proof.
  induction es as [ | e es IH]; intros w Hw Hplay; cbn [playable] in Hplay.
  - exact Hw.
  - apply andb_prop in Hplay. destruct Hplay as [Hr Hrest].
    change (steps w (e :: es)) with (steps (step w e) es).
    apply IH; [ apply reachable_step; assumption | exact Hrest ].
Qed.

Lemma customizing_reachable : reachable customizing.
Proof.
  apply reachable_steps; [ apply reachable_initial | vm_compute; reflexivity ].
Qed.

Lemma analysing_reachable : reachable analysing.
Proof.
  apply reachable_steps; [ apply reachable_initial | vm_compute; reflexivity ].
Qed.

Lemma refused_reachable : reachable refused.
Proof.
  apply reachable_steps; [ apply reachable_initial | vm_compute; reflexivity ].
Qed.

Lemma uploadPhase_uploading (s : AppState) (t : Task) :
  uploadPhase s t -> uploading t.
Proof. intros [file | raw | image _]; constructor. Qed.

(** X1.  In every state the page can reach exactly one of the two cards of
    the right column is rendered, and the customize and checkout card is
    rendered only with a printable verdict, a processed image, no error
    message and no processing status. *)
Theorem page_shows_one_card_and_customizes_only_printable (w : World) :
  reachable w ->
  uploadCardShown (app w) = negb (customizeCardShown (app w)) /\
  (customizeCardShown (app w) = true ->
   (exists v, analysis (app w) = Some v /\ isPrintable v = true) /\
   isSome (url (logoConfig (app w))) = true /\
   fileError (app w) = None /\
   processingStatus (app w) = "").
Proof.
  intros Hreach. apply reachable_page_state in Hreach.
  unfold uploadCardShown, customizeCardShown.
  destruct Hreach as
    [ (_ & Hs & Ha & _)
    | [ (r & t & _ & _ & Hs & Ha & _)
    | [ (v & img & _ & Hs & Ha & _)
    | [ (_ & Hplaced)
      | (r & s0 & v0 & _ & Hplaced & _) ] ] ] ];
    try (rewrite Hs, Ha; cbn; split; [ reflexivity | discriminate ]).
  all: destruct Hplaced as (Hs & (v & Ha & Hv) & Hurl & Hfe & Hps);
    rewrite Ha; destruct Hs as [-> | ->]; cbn;
    (split; [ reflexivity | intros _; eauto 6 ]).
Qed.

(** X2.  On the page, whatever is handed to [saveDesignToDatabase] has a
    printable verdict and an image URL; while the save is pending it is the
    only run in flight, the redirect status is [saving] and the checkout
    button is disabled. *)
Theorem page_saves_only_printable_designs_with_an_image (w : World) (r : nat)
    (config : LogoConfig) (verdict : AnalysisResult) (k : Outcome string -> Async) :
  reachable w ->
  lookup r (pending w) = Some (SavingDesign config verdict k) ->
  isPrintable verdict = true /\
  isSome (url config) = true /\
  redirectStatus (app w) = saving /\
  rendered (app w) ClickCheckout = false /\
  pending w = [(r, SavingDesign config verdict k)].
Proof.
  intros Hreach Hlookup. apply reachable_page_state in Hreach.
  destruct Hreach as
    [ (Hp & _)
    | [ (r0 & t & Hp & Ht & _)
    | [ (v & img & Hp & _)
    | [ (Hp & _)
      | (r0 & s0 & v0 & Hp & _ & Hrd & Hv0 & Hurl0) ] ] ] ];
    rewrite Hp in Hlookup; cbn [lookup] in Hlookup; try discriminate Hlookup.
  - destruct (Nat.eqb r r0); [ | discriminate Hlookup ].
    destruct Ht; discriminate Hlookup.
  - destruct (Nat.eqb_spec r r0) as [-> | _]; [ | discriminate Hlookup ].
    unfold awaitingSaveDesign in Hlookup, Hp.
    injection Hlookup as Hc Hv Hk. subst config verdict k.
    repeat split; try assumption.
    unfold rendered. rewrite Hrd. cbn. apply andb_false_r.
Qed.

(** X3.  On the page, step 2 shows either the spinner, with exactly one
    upload run in flight and no reset button, or the "Adjustments Required"
    panel with the reasoning of an unprintable verdict and its reset button,
    with nothing in flight: never both, never neither. *)
Theorem page_at_step_2_shows_spinner_or_refusal (w : World) :
  reachable w ->
  activeStep (app w) = Step2 ->
  (processingShown (app w) = true /\
   verificationFailedText (app w) = None /\
   rendered (app w) ClickReset = false /\
   exists r t, pending w = [(r, t)] /\ uploading t)
  \/
  (processingShown (app w) = false /\
   rendered (app w) ClickReset = true /\
   pending w = [] /\
   exists v, analysis (app w) = Some v /\ isPrintable v = false /\
             verificationFailedText (app w) = Some (reasoning v)).
Proof.
  intros Hreach Hstep2. apply reachable_page_state in Hreach.
  unfold processingShown, rendered, verificationFailedText.
  destruct Hreach as
    [ (_ & Hs & _)
    | [ (r & t & Hp & Ht & Hs & Ha & _)
    | [ (v & img & Hp & Hs & Ha & Hv & _)
    | [ (_ & [Hs | Hs] & _)
      | (r & s0 & v0 & _ & ([Hs | Hs] & _) & _) ] ] ] ];
    try (rewrite Hs in Hstep2; discriminate Hstep2).
  - left. rewrite Hs, Ha. cbn. repeat split.
    exists r, t. split; [ exact Hp | eapply uploadPhase_uploading; exact Ht ].
  - right. rewrite Hs, Ha, Hv. cbn. repeat split; [ exact Hp | ].
    exists v. repeat split. exact Hv.
Qed.

(** X4.  On the page, a processing status is present only at step 2 while
    an upload run is in flight; an error message is present only at step 1
    with no verdict and nothing in flight; the redirect status leaves [idle]
    only behind the customize and checkout card. *)
Theorem page_status_and_error_housekeeping (w : World) :
  reachable w ->
  (processingStatus (app w) <> "" ->
   activeStep (app w) = Step2 /\ exists r t, pending w = [(r, t)] /\ uploading t) /\
  (fileError (app w) <> None ->
   activeStep (app w) = Step1 /\ analysis (app w) = None /\ pending w = []) /\
  (redirectStatus (app w) <> idle ->
   customizeCardShown (app w) = true).
Proof.
  intros Hreach. apply reachable_page_state in Hreach.
  unfold customizeCardShown.
  destruct Hreach as
    [ (Hp & Hs & Ha & Hps & Hrd)
    | [ (r & t & Hp & Ht & Hs & Ha & Hfe & Hrd)
    | [ (v & img & Hp & Hs & Ha & Hv & _ & Hfe & Hps & Hrd)
    | [ (Hp & Hs & (v & Ha & Hv) & _ & Hfe & Hps)
      | (r & s0 & v0 & Hp & (Hs & (v & Ha & Hv) & _ & Hfe & Hps) & _) ] ] ] ].
  - split; [ intros Hne; contradiction | ].
    split; [ intros _; repeat split; assumption | intros Hne; contradiction ].
  - split; [ intros _; split; [ exact Hs | ];
             exists r, t; split; [ exact Hp | eapply uploadPhase_uploading; exact Ht ] | ].
    split; intros Hne; contradiction.
  - split; [ intros Hne; contradiction | ].
    split; intros Hne; contradiction.
  - split; [ intros H; contradiction | ].
    split; [ intros H; contradiction | ].
    intros _. rewrite Ha. destruct Hs as [-> | ->]; reflexivity.
  - split; [ intros H; contradiction | ].
    split; [ intros H; contradiction | ].
    intros _. rewrite Ha. destruct Hs as [-> | ->]; reflexivity.
Qed.

(** X13.  On the page, "Upload a different file" gives back exactly the
    initial state of the component, transform included, with nothing in
    flight, the preview gone and the file input rendered. *)
Theorem page_reset_returns_to_the_initial_state (w : World) :
  reachable w ->
  rendered (app w) ClickReset = true ->
  app (step w ClickReset) = initialState /\
  pending (step w ClickReset) = [] /\
  viewerShown (app (step w ClickReset)) = false /\
  rendered (app (step w ClickReset)) (FileInputChange None) = true.
Proof.
  intros Hreach Hr. apply reachable_page_state in Hreach.
  destruct w as [[lc st an fe ps rd] p n c l u].
  unfold pageState, placed in Hreach. cbn in Hreach.
  unfold rendered, verificationFailedText in Hr. cbn in Hr.
  destruct Hreach as
    [ (-> & -> & -> & -> & ->)
    | [ (r & t & -> & Ht & -> & -> & -> & ->)
    | [ (v & img & -> & -> & -> & Hv & -> & -> & -> & ->)
    | [ (-> & Hstep & (v & -> & Hv) & Hurl & -> & ->)
      | (r & s0 & v0 & -> & (Hstep & (v & -> & Hv) & Hurl & -> & ->) & -> & _) ] ] ] ];
    try discriminate Hr;
    try (destruct Hstep as [-> | ->]; discriminate Hr).
  repeat split.
Qed.

Lemma page_redirect_is_final (w : World) (e : Event) :
  pageState w ->
  redirectStatus (app w) <> idle ->
  rendered (app w) e = true ->
  redirectStatus (app (step w e)) <> idle.
Proof.
  destruct w as [[lc st an fe ps rd] p n c l u].
  intros Hpage Hrd Hr.
  unfold pageState, placed in Hpage. cbn in Hpage, Hrd.
  destruct Hpage as
    [ (-> & -> & -> & -> & ->)
    | [ (r & t & -> & Ht & -> & -> & -> & ->)
    | [ (v & img & -> & -> & -> & Hv & -> & -> & -> & ->)
    | [ (-> & Hstep & (v & -> & Hv) & Hurl & -> & ->)
      | (r & s0 & v0 & -> & (Hstep & (v & -> & Hv) & Hurl & -> & ->) & -> & _) ] ] ] ];
    try (exfalso; apply Hrd; reflexivity).
  - destruct e as [[file | ] | x | x | x | x | | | | | r raw | r o | r o | r o];
      destruct Hstep as [-> | ->]; cbn in Hr; try discriminate Hr;
      try (cbn; exact Hrd).
    destruct rd; [ exfalso; apply Hrd; reflexivity | discriminate Hr | discriminate Hr ].
  - destruct e as [[file | ] | x | x | x | x | | | | | r' raw | r' o | r' o | r' o];
      destruct Hstep as [-> | ->]; cbn in Hr; try discriminate Hr;
      try (cbn; discriminate).
    all: cbn [step pending]; rewrite lookup_single.
    all: destruct (Nat.eqb_spec r' r) as [-> | Hne]; try (cbn; discriminate).
    all: destruct o as [designId | err]; cbn; discriminate.
Qed.

Lemma checkout_click_starts_saving (w : World) :
  rendered (app w) ClickCheckout = true ->
  redirectStatus (app w) = idle /\
  redirectStatus (app (step w ClickCheckout)) = saving.
Proof.
  unfold rendered, customizeCardShown. intros Hr.
  apply andb_prop in Hr. destruct Hr as [Hr Hidle].
  apply andb_prop in Hr. destruct Hr as [Hr _].
  apply andb_prop in Hr. destruct Hr as [_ Hsome].
  split.
  - destruct (redirectStatus (app w)); [ reflexivity | discriminate | discriminate ].
  - cbn [step]. unfold invoke, handleShopifyCheckout.
    destruct (analysis (app w)) as [v | ]; [ reflexivity | discriminate Hsome ].
Qed.

Lemma page_checkouts_bounded (es : list Event) :
  forall w, reachable w -> playable w es = true ->
  List.length (filter isCheckoutClick es)
  <= (if RedirectStatus_eqb (redirectStatus (app w)) idle then 1 else 0).
Proof.
  induction es as [ | e es IH]; intros w Hw Hplay; cbn [playable] in Hplay.
  - cbn. destruct (RedirectStatus_eqb _ _); lia.
  - apply andb_prop in Hplay. destruct Hplay as [Hr Hrest].
    pose proof (reachable_step w e Hw Hr) as Hw'.
    specialize (IH (step w e) Hw' Hrest).
    cbn [filter].
    destruct (isCheckoutClick e) eqn:He.
    + destruct e; try discriminate He.
      destruct (checkout_click_starts_saving w Hr) as [Hidle Hsaving].
      rewrite Hsaving in IH. rewrite Hidle. cbn in IH |- *. lia.
    + destruct (redirectStatus (app w)) eqn:Hrd; cbn;
        [ destruct (RedirectStatus_eqb _ _) in IH; lia | | ].
      all: assert (redirectStatus (app (step w e)) <> idle) as Hfinal
        by (apply page_redirect_is_final;
            [ apply reachable_page_state; exact Hw | rewrite Hrd; discriminate | exact Hr ]).
      all: destruct (redirectStatus (app (step w e))); [ contradiction | | ];
        cbn in IH; exact IH.
Qed.

Lemma playable_app (es1 es2 : list Event) :
  forall w, playable w (es1 ++ es2) = playable w es1 && playable (steps w es1) es2.
Proof.
  induction es1 as [ | e es1 IH]; intros w; cbn [playable List.app].
  - reflexivity.
  - rewrite IH. rewrite andb_assoc. reflexivity.
Qed.

Lemma page_redirect_stays (es : list Event) :
  forall w, reachable w -> playable w es = true ->
  redirectStatus (app w) <> idle ->
  redirectStatus (app (steps w es)) <> idle.
Proof.
  induction es as [ | e es IH]; intros w Hw Hplay Hrd; cbn [playable] in Hplay.
  - exact Hrd.
  - apply andb_prop in Hplay. destruct Hplay as [Hr Hrest].
    change (steps w (e :: es)) with (steps (step w e) es).
    apply IH; [ apply reachable_step; assumption | exact Hrest | ].
    apply page_redirect_is_final;
      [ apply reachable_page_state; exact Hw | exact Hrd | exact Hr ].
Qed.

(** X5.  Whatever the user does and however the calls settle, one page
    session clicks "Pay on Shopify" at most once: once the redirect status
    has left [idle] it never returns, the button stays disabled, and no
    further checkout is started - also after a failed save. *)
Theorem page_starts_at_most_one_checkout (es1 es2 : list Event) :
  playable (quiescent initialState) (es1 ++ es2) = true ->
  List.length (filter isCheckoutClick (es1 ++ es2)) <= 1 /\
  (redirectStatus (app (steps (quiescent initialState) es1)) <> idle ->
   redirectStatus (app (steps (quiescent initialState) (es1 ++ es2))) <> idle /\
   rendered (app (steps (quiescent initialState) (es1 ++ es2))) ClickCheckout = false /\
   filter isCheckoutClick es2 = []).
Proof.
  intros Hplay.
  pose proof Hplay as Hboth. rewrite playable_app in Hboth.
  apply andb_prop in Hboth. destruct Hboth as [Hplay1 Hplay2].
  pose proof (reachable_steps es1 _ reachable_initial Hplay1) as Hreach1.
  split.
  - exact (page_checkouts_bounded _ (quiescent initialState) reachable_initial Hplay).
  - intros Hrd.
    pose proof (page_redirect_stays es2 _ Hreach1 Hplay2 Hrd) as Hstays.
    rewrite <- steps_app in Hstays.
    split; [ exact Hstays | ]. split.
    + unfold rendered.
      destruct (redirectStatus (app (steps (quiescent initialState) (es1 ++ es2))));
        [ contradiction | | ]; cbn; apply andb_false_r.
    + pose proof (page_checkouts_bounded es2 _ Hreach1 Hplay2) as Hbound.
      destruct (redirectStatus (app (steps (quiescent initialState) es1)));
        [ contradiction | | ]; cbn in Hbound;
        destruct (filter isCheckoutClick es2); [ reflexivity | cbn in Hbound; lia
                                                | reflexivity | cbn in Hbound; lia ].
Qed.

(** ** Checkout *)

Lemma checkout_started_turn (w : World) (v : AnalysisResult) :
  analysis (app w) = Some v ->
  step w ClickCheckout =
  suspend (nextRun w) (awaitingSaveDesign (app w) v)
    (withApp (setRedirectStatus saving) (allocate w)).
Proof.
  intros H. unfold step, invoke, handleShopifyCheckout. rewrite H. reflexivity.
Qed.

(** The guard of line 137: with no verdict the handler returns at once. *)
Lemma checkout_guard_turn (w : World) :
  analysis (app w) = None -> step w ClickCheckout = allocate w.
Proof.
  intros H. unfold step, invoke, handleShopifyCheckout. rewrite H. reflexivity.
Qed.

Lemma save_resolved_turn (w : World) (r : nat) (s : AppState) (v : AnalysisResult)
    (designId : string) :
  lookup r (pending w) = Some (awaitingSaveDesign s v) ->
  step w (SaveDesignSettled r (Resolved designId)) =
  navigate (cartUrlOf s v designId)
    (withApp (setRedirectStatus redirecting) (resume r w)).
Proof. intros H. unfold step. rewrite H. reflexivity. Qed.

Lemma save_rejected_turn (w : World) (r : nat) (s : AppState) (v : AnalysisResult)
    (e : Error) :
  lookup r (pending w) = Some (awaitingSaveDesign s v) ->
  step w (SaveDesignSettled r (Rejected e)) = escape e (resume r w).
Proof. intros H. unfold step. rewrite H. reflexivity. Qed.

(** X7.  [handleShopifyCheckout] works on the state of the click.  Whatever
    happens between the click and the save settling (the "Back" button and
    the sliders stay available), the design handed to
    [saveDesignToDatabase] and the scale and colors put in the cart URL are
    those of the click; the save settling sets the status to [redirecting]
    and removes the run. *)
Theorem checkout_sends_the_design_of_the_click (w : World) (v : AnalysisResult)
    (es : list Event) (designId : string) :
  analysis (app w) = Some v ->
  foreign (nextRun w) es ->
  let a := nextRun w in
  let clicked := steps w ([ClickCheckout] ++ es)%list in
  let done := steps w ([ClickCheckout] ++ es ++ [SaveDesignSettled a (Resolved designId)])%list in
  lookup a (pending clicked) = Some (awaitingSaveDesign (app w) v) /\
  location done =
    Some {| attr_design_id := designId;
            attr_colors := String.concat ", " (suggestedColors v);
            attr_scale_mm := scale (logoConfig (app w)) |} /\
  app done = setRedirectStatus redirecting (app clicked) /\
  lookup a (pending done) = None /\
  uncaught done = uncaught clicked /\
  console done = console clicked.
Proof.
  intros Hverdict Hforeign a clicked done.
  assert (lookup a (pending clicked) = Some (awaitingSaveDesign (app w) v)) as Hsaving.
  { subst clicked. rewrite steps_app.
    change (steps w [ClickCheckout]) with (step w ClickCheckout).
    rewrite (checkout_started_turn w v Hverdict).
    destruct (steps_foreign es a Hforeign
                (suspend (nextRun w) (awaitingSaveDesign (app w) v)
                   (withApp (setRedirectStatus saving) (allocate w))))
      as [Hkept _]; [ cbn; lia | ].
    rewrite Hkept. apply pending_suspend. }
  assert (done = step clicked (SaveDesignSettled a (Resolved designId))) as Hdone.
  { subst done clicked. rewrite app_assoc. apply steps_snoc. }
  rewrite Hdone, (save_resolved_turn clicked a (app w) v designId Hsaving).
  split; [ exact Hsaving | ].
  repeat split.
  cbn [pending navigate withApp resume]. apply lookup_remove_eq.
Qed.

(** X6.  When [saveDesignToDatabase] rejects, nothing catches it: the
    exception escapes, the redirect status stays [saving] so the button stays
    disabled, the page does not navigate, and no error message is set or
    logged. *)
Theorem failed_save_leaves_checkout_stuck (w : World) (v : AnalysisResult)
    (e : Error) :
  analysis (app w) = Some v ->
  let w' := steps w [ClickCheckout; SaveDesignSettled (nextRun w) (Rejected e)] in
  app w' = setRedirectStatus saving (app w) /\
  rendered (app w') ClickCheckout = false /\
  location w' = location w /\
  uncaught w' = (uncaught w ++ [e])%list /\
  console w' = console w /\
  fileError (app w') = fileError (app w) /\
  lookup (nextRun w) (pending w') = None.
Proof.
  intros Hverdict w'. subst w'.
  unfold steps. cbn [fold_left].
  rewrite (checkout_started_turn w v Hverdict).
  rewrite (save_rejected_turn _ _ (app w) v) by apply pending_suspend.
  split; [ reflexivity | ].
  split; [ cbn; apply andb_false_r | ].
  repeat (split; [ reflexivity | ]).
  cbn [pending escape resume]. apply lookup_remove_eq.
Qed.

(** ** C7: checkout without a verdict *)







(** ** Upload runs, whatever the outcomes *)

Lemma upload_until_read (w : World) (file : File) (raw : string) :
  (size file <= MAX_UPLOAD_BYTES)%N ->
  steps w [ FileInputChange (Some file); ReaderLoaded (nextRun w) raw ] =
  suspend (nextRun w) (awaitingProcessLogo raw)
    (withApp (setProcessingStatus "Removing background & Centering...")
       (resume (nextRun w)
          (suspend (nextRun w) (Reading file onload)
             (withApp (setActiveStep Step2)
                (withApp (setFileError None) (allocate w)))))).
Proof.
  intros Hsize. unfold steps. cbn [fold_left].
  rewrite (file_accepted_turn w file Hsize).
  rewrite (reader_loaded_turn _ _ file) by apply pending_suspend.
  reflexivity.
Qed.

Lemma settlement_without_run (w : World) (r : nat) (a : Outcome AnalysisResult) :
  lookup r (pending w) = None -> step w (AnalyzeDesignSettled r a) = w.
Proof. intros H. unfold step. rewrite H. reflexivity. Qed.

Lemma upload_run_logo_failed (w : World) (file : File) (raw : string) (e : Error)
    (a : Outcome AnalysisResult) :
  (size file <= MAX_UPLOAD_BYTES)%N ->
  steps w (uploadRun (nextRun w) file raw (Rejected e) a) =
  recovered e
    (resume (nextRun w)
       (suspend (nextRun w) (awaitingProcessLogo raw)
          (withApp (setProcessingStatus "Removing background & Centering...")
             (resume (nextRun w)
                (suspend (nextRun w) (Reading file onload)
                   (withApp (setActiveStep Step2)
                      (withApp (setFileError None) (allocate w)))))))).
Proof.
  intros Hsize. unfold uploadRun.
  change (steps w [FileInputChange (Some file); ReaderLoaded (nextRun w) raw;
                   ProcessLogoSettled (nextRun w) (Rejected e);
                   AnalyzeDesignSettled (nextRun w) a])
    with (step (step (steps w [FileInputChange (Some file);
                               ReaderLoaded (nextRun w) raw])
                  (ProcessLogoSettled (nextRun w) (Rejected e)))
            (AnalyzeDesignSettled (nextRun w) a)).
  rewrite (upload_until_read w file raw Hsize).
  rewrite (logo_failed_turn _ _ raw) by apply pending_suspend.
  apply settlement_without_run.
  cbn [pending recovered withApp logError resume]. apply lookup_remove_eq.
Qed.

(** X8.  When [processLogo] fails, the transform is untouched: the previous
    image URL, offsets, scale and rotation, the preview and the verdict stay
    as they were; the error message is set, the error is logged, the page is
    at step 1 with the processing status cleared, and [analyzeDesign] is
    never awaited. *)
Theorem failed_processing_keeps_the_previous_logo (w : World) (file : File)
    (raw : string) (e : Error) (a : Outcome AnalysisResult) :
  (size file <= MAX_UPLOAD_BYTES)%N ->
  let w' := steps w (uploadRun (nextRun w) file raw (Rejected e) a) in
  logoConfig (app w') = logoConfig (app w) /\
  viewerShown (app w') = viewerShown (app w) /\
  analysis (app w') = analysis (app w) /\
  redirectStatus (app w') = redirectStatus (app w) /\
  fileError (app w') = Some "System Error: Could not verify design." /\
  activeStep (app w') = Step1 /\
  processingStatus (app w') = "" /\
  console w' = (console w ++ [e])%list /\
  lookup (nextRun w) (pending w') = None.
Proof.
  intros Hsize w'. subst w'.
  rewrite (upload_run_logo_failed w file raw e a Hsize).
  repeat (split; [ reflexivity | ]).
  cbn [pending recovered withApp logError resume]. apply lookup_remove_eq.
Qed.

Lemma upload_waits_at_step_2 (s : AppState) (e : Event) :
  activeStep s = Step2 -> analysis s = None -> run_of e = None ->
  rendered s e = false.
Proof.
  intros Hstep Hnone He.
  destruct e as [file | v | v | v | v | | | | | r raw | r o | r o | r o];
    try discriminate He;
    unfold rendered, customizeCardShown, verificationFailedText;
    rewrite Hstep, ?Hnone; reflexivity.
Qed.

(** X9.  An accepted upload run ends only when what it waits for settles.
    While the file is being read, or [processLogo] or [analyzeDesign] is
    outstanding, the run stays pending, the page stays at step 2, and no
    other event ends the run: there is no timeout, no cancel and no handler
    for a failed read.  When the state held no verdict at the start, as it
    does wherever the page shows the file input, the spinner is shown all the
    while and no control is rendered.  Once the file
    is read and the calls have settled, whatever their outcomes, the run is
    over: it is no longer pending, the processing status is empty, no
    exception has escaped and the page has not navigated.  The step is then 3
    exactly for a printable verdict, 2 for an unprintable one and 1 after a
    failure, and the error message is set exactly after a failure. *)
Theorem upload_run_ends_only_when_its_calls_settle (w : World) (file : File)
    (raw img : string) (p : Outcome string) (a : Outcome AnalysisResult) :
  (size file <= MAX_UPLOAD_BYTES)%N ->
  let r := nextRun w in
  let started := steps w [FileInputChange (Some file)] in
  let read := steps w [FileInputChange (Some file); ReaderLoaded r raw] in
  let processed :=
    steps w [FileInputChange (Some file); ReaderLoaded r raw;
             ProcessLogoSettled r (Resolved img)] in
  let w' := steps w (uploadRun r file raw p a) in
  (forall wi, In wi [started; read; processed] ->
     isSome (lookup r (pending wi)) = true /\
     activeStep (app wi) = Step2 /\
     (forall e, run_of e <> Some r ->
                lookup r (pending (step wi e)) = lookup r (pending wi)) /\
     (analysis (app w) = None ->
      processingShown (app wi) = true /\
      forall e, run_of e = None -> rendered (app wi) e = false)) /\
  lookup r (pending w') = None /\
  processingStatus (app w') = "" /\
  uncaught w' = uncaught w /\
  location w' = location w /\
  redirectStatus (app w') = redirectStatus (app w) /\
  activeStep (app w') = stepAfterRun p a /\
  fileError (app w') = errorAfterRun p a /\
  (activeStep (app w') = Step3 ->
   exists v, a = Resolved v /\ isPrintable v = true /\ analysis (app w') = Some v).
Proof.
  intros Hsize r started read processed w'.
  subst r started read processed w'.
  split.
  - assert (forall wi, isSome (lookup (nextRun w) (pending wi)) = true ->
              nextRun w < nextRun wi ->
              activeStep (app wi) = Step2 ->
              analysis (app wi) = analysis (app w) ->
              isSome (lookup (nextRun w) (pending wi)) = true /\
              activeStep (app wi) = Step2 /\
              (forall e, run_of e <> Some (nextRun w) ->
                         lookup (nextRun w) (pending (step wi e))
                         = lookup (nextRun w) (pending wi)) /\
              (analysis (app w) = None ->
               processingShown (app wi) = true /\
               forall e, run_of e = None -> rendered (app wi) e = false))
      as Hwaiting.
    { intros wi Hpending Hlt Hstep Hana.
      split; [ exact Hpending | ]. split; [ exact Hstep | ].
      split.
      - intros e He. apply step_foreign; assumption.
      - intros Hnone. rewrite Hnone in Hana. split.
        + unfold processingShown. rewrite Hstep, Hana. reflexivity.
        + intros e He. apply upload_waits_at_step_2; assumption. }
    intros wi [<- | [<- | [<- | []]]]; apply Hwaiting.
    + change (steps w [FileInputChange (Some file)])
        with (step w (FileInputChange (Some file))).
      rewrite (file_accepted_turn w file Hsize).
      rewrite pending_suspend. reflexivity.
    + change (steps w [FileInputChange (Some file)])
        with (step w (FileInputChange (Some file))).
      rewrite (file_accepted_turn w file Hsize). cbn. lia.
    + change (steps w [FileInputChange (Some file)])
        with (step w (FileInputChange (Some file))).
      rewrite (file_accepted_turn w file Hsize). reflexivity.
    + change (steps w [FileInputChange (Some file)])
        with (step w (FileInputChange (Some file))).
      rewrite (file_accepted_turn w file Hsize). reflexivity.
    + rewrite (upload_until_read w file raw Hsize).
      rewrite pending_suspend. reflexivity.
    + rewrite (upload_until_read w file raw Hsize). cbn. lia.
    + rewrite (upload_until_read w file raw Hsize). reflexivity.
    + rewrite (upload_until_read w file raw Hsize). reflexivity.
    + rewrite (upload_until_processed w file raw img Hsize).
      rewrite pending_suspend. reflexivity.
    + rewrite (upload_until_processed w file raw img Hsize). cbn. lia.
    + rewrite (upload_until_processed w file raw img Hsize). reflexivity.
    + rewrite (upload_until_processed w file raw img Hsize). reflexivity.
  - destruct p as [img' | e].
    + unfold uploadRun.
      change (steps w [FileInputChange (Some file); ReaderLoaded (nextRun w) raw;
                       ProcessLogoSettled (nextRun w) (Resolved img');
                       AnalyzeDesignSettled (nextRun w) a])
        with (step (steps w [FileInputChange (Some file);
                             ReaderLoaded (nextRun w) raw;
                             ProcessLogoSettled (nextRun w) (Resolved img')])
                (AnalyzeDesignSettled (nextRun w) a)).
      rewrite (upload_until_processed w file raw img' Hsize).
      destruct a as [v | e].
      * rewrite (verdict_turn _ _ img') by apply pending_suspend.
        split; [ cbn [pending withApp resume]; apply lookup_remove_eq | ].
        unfold verdictApplied, stepAfterRun, errorAfterRun.
        destruct (isPrintable v) eqn:Hv; cbn;
          repeat (split; [ reflexivity | ]);
          intros H; [ exists v; repeat split; exact Hv | discriminate H ].
      * rewrite (analysis_failed_turn _ _ img') by apply pending_suspend.
        split; [ cbn [pending recovered withApp logError resume];
                 apply lookup_remove_eq | ].
        cbn. repeat (split; [ reflexivity | ]). intros H. discriminate H.
    + rewrite (upload_run_logo_failed w file raw e a Hsize).
      split; [ cbn [pending recovered withApp logError resume];
               apply lookup_remove_eq | ].
      cbn. repeat (split; [ reflexivity | ]). intros H. discriminate H.
Qed.

(** X10.  A file of at most 5 MiB, the limit included, is accepted: an
    earlier error message is cleared, step 2 is shown (with the spinner when
    there is no verdict), the read is started, and the transform and the
    verdict stay until the pipeline delivers.  Closing the file dialog without
    a file changes nothing. *)
Theorem file_chooser_accepts_up_to_the_limit (w : World) (file : File) :
  (size file <= MAX_UPLOAD_BYTES)%N ->
  let w' := step w (FileInputChange (Some file)) in
  fileError (app w') = None /\
  activeStep (app w') = Step2 /\
  logoConfig (app w') = logoConfig (app w) /\
  analysis (app w') = analysis (app w) /\
  processingStatus (app w') = processingStatus (app w) /\
  lookup (nextRun w) (pending w') = Some (Reading file onload) /\
  (analysis (app w) = None -> processingShown (app w') = true) /\
  app (step w (FileInputChange None)) = app w /\
  pending (step w (FileInputChange None)) = pending w.
Proof.
  intros Hsize w'. subst w'.
  rewrite (file_accepted_turn w file Hsize).
  repeat (split; [ reflexivity | ]).
  split; [ apply pending_suspend | ].
  split; [ | split; reflexivity ].
  intros Hnone. unfold processingShown. cbn. rewrite Hnone. reflexivity.
Qed.

(** ** Sequences of edits *)

(** X11.  Slider edits compose field by field: after any sequence of them
    each of x, y, scale and rotation holds the last value supplied for it, or
    its earlier value when none was, whatever the order of edits to different
    fields; the image URL, the step, the verdict and everything else are
    untouched. *)
Theorem slider_edits_compose_per_field (es : list Event) :
  forall w : World,
  forallb isSliderEdit es = true ->
  let c := logoConfig (app w) in
  let s' := app (steps w es) in
  logoConfig s' =
    {| url := url c;
       x := lastOf valueX es (x c);
       y := lastOf valueY es (y c);
       scale := lastOf valueScale es (scale c);
       rotation := lastOf valueRotation es (rotation c) |} /\
  activeStep s' = activeStep (app w) /\
  analysis s' = analysis (app w) /\
  fileError s' = fileError (app w) /\
  processingStatus s' = processingStatus (app w) /\
  redirectStatus s' = redirectStatus (app w) /\
  pending (steps w es) = pending w /\
  location (steps w es) = location w.
Proof.
  induction es as [ | e es IH]; intros w Hall.
  - cbn. destruct (logoConfig (app w)); repeat split.
  - cbn [forallb] in Hall. apply andb_prop in Hall. destruct Hall as [He Hes].
    specialize (IH (step w e) Hes).
    cbv zeta in IH |- *.
    change (steps w (e :: es)) with (steps (step w e) es).
    destruct IH as (Hlogo & Hstep & Hana & Hfe & Hps & Hrd & Hpend & Hloc).
    rewrite Hlogo, Hstep, Hana, Hfe, Hps, Hrd, Hpend, Hloc.
    unfold lastOf. cbn [fold_left].
    destruct e; try discriminate He; repeat split.
Qed.

(** X12.  "Proceed to Checkout" and "Back to Customization" change the step
    and nothing else: after any sequence of them the step is the one of the
    last click and the design is as before; a sequence that ends where it
    started gives back the very same state. *)
Theorem step_switches_keep_the_design (es : list Event) :
  forall w : World,
  forallb isStepSwitch es = true ->
  let s' := app (steps w es) in
  activeStep s' = lastSwitch es (activeStep (app w)) /\
  logoConfig s' = logoConfig (app w) /\
  analysis s' = analysis (app w) /\
  fileError s' = fileError (app w) /\
  processingStatus s' = processingStatus (app w) /\
  redirectStatus s' = redirectStatus (app w) /\
  pending (steps w es) = pending w /\
  (lastSwitch es (activeStep (app w)) = activeStep (app w) ->
   app (steps w es) = app w).
Proof.
  assert (forall (es : list Event) (w : World),
            forallb isStepSwitch es = true ->
            activeStep (app (steps w es)) = lastSwitch es (activeStep (app w)) /\
            logoConfig (app (steps w es)) = logoConfig (app w) /\
            analysis (app (steps w es)) = analysis (app w) /\
            fileError (app (steps w es)) = fileError (app w) /\
            processingStatus (app (steps w es)) = processingStatus (app w) /\
            redirectStatus (app (steps w es)) = redirectStatus (app w) /\
            pending (steps w es) = pending w) as Hfields.
  { clear es. induction es as [ | e es IH]; intros w Hall.
    - cbn. repeat split.
    - cbn [forallb] in Hall. apply andb_prop in Hall. destruct Hall as [He Hes].
      specialize (IH (step w e) Hes).
      change (steps w (e :: es)) with (steps (step w e) es).
      destruct IH as (Hstep & Hlogo & Hana & Hfe & Hps & Hrd & Hpend).
      rewrite Hstep, Hlogo, Hana, Hfe, Hps, Hrd, Hpend.
      unfold lastSwitch. cbn [fold_left].
      destruct e; try discriminate He; repeat split. }
  intros w Hall s'. subst s'.
  destruct (Hfields es w Hall) as (Hstep & Hlogo & Hana & Hfe & Hps & Hrd & Hpend).
  repeat (split; [ assumption | ]).
  intros Hsame. rewrite Hsame in Hstep.
  destruct (app (steps w es)), (app w). cbn in *. congruence.
Qed.

(** ** Instances of the properties above *)

Lemma page_shows_one_card_and_customizes_only_printable_witness :
  reachable customizing /\
  uploadCardShown (app customizing) = negb (customizeCardShown (app customizing)).
Proof.
  split; [ exact customizing_reachable | ].
  exact (proj1 (page_shows_one_card_and_customizes_only_printable
                  customizing customizing_reachable)).
Defined.

Lemma checkingOut_reachable : reachable checkingOut.
Proof.
  apply reachable_steps; [ | vm_compute; reflexivity ].
  apply reachable_steps; [ | vm_compute; reflexivity ].
  exact customizing_reachable.
Qed.

Lemma checkingOut_pending :
  lookup 2 (pending checkingOut)
  = Some (SavingDesign (logoConfig (app proceeded)) verdict28
            (await (afterSave (app proceeded) verdict28))).
Proof. vm_compute. reflexivity. Qed.

Lemma page_saves_only_printable_designs_with_an_image_witness :
  reachable checkingOut /\
  lookup 2 (pending checkingOut)
  = Some (SavingDesign (logoConfig (app proceeded)) verdict28
            (await (afterSave (app proceeded) verdict28))) /\
  isPrintable verdict28 = true /\
  isSome (url (logoConfig (app proceeded))) = true.
Proof.
  split; [ exact checkingOut_reachable | ].
  split; [ exact checkingOut_pending | ].
  destruct (page_saves_only_printable_designs_with_an_image checkingOut 2 _ _ _
              checkingOut_reachable checkingOut_pending) as (Hv & Hurl & _).
  split; [ exact Hv | exact Hurl ].
Defined.

Lemma analysing_at_step_2 : activeStep (app analysing) = Step2.
Proof. vm_compute. reflexivity. Qed.

Lemma page_at_step_2_shows_spinner_or_refusal_witness :
  reachable analysing /\
  activeStep (app analysing) = Step2 /\
  ((processingShown (app analysing) = true /\
    verificationFailedText (app analysing) = None /\
    rendered (app analysing) ClickReset = false /\
    exists r t, pending analysing = [(r, t)] /\ uploading t)
   \/
   (processingShown (app analysing) = false /\
    rendered (app analysing) ClickReset = true /\
    pending analysing = [] /\
    exists v, analysis (app analysing) = Some v /\ isPrintable v = false /\
              verificationFailedText (app analysing) = Some (reasoning v))).
Proof.
  split; [ exact analysing_reachable | ].
  split; [ exact analysing_at_step_2 | ].
  exact (page_at_step_2_shows_spinner_or_refusal analysing
           analysing_reachable analysing_at_step_2).
Defined.

Lemma page_status_and_error_housekeeping_witness :
  reachable analysing /\
  (processingStatus (app analysing) <> "" ->
   activeStep (app analysing) = Step2 /\
   exists r t, pending analysing = [(r, t)] /\ uploading t).
Proof.
  split; [ exact analysing_reachable | ].
  exact (proj1 (page_status_and_error_housekeeping analysing analysing_reachable)).
Defined.

Lemma refused_offers_reset : rendered (app refused) ClickReset = true.
Proof. vm_compute. reflexivity. Qed.

Lemma page_reset_returns_to_the_initial_state_witness :
  reachable refused /\
  rendered (app refused) ClickReset = true /\
  app (step refused ClickReset) = initialState.
Proof.
  split; [ exact refused_reachable | ].
  split; [ exact refused_offers_reset | ].
  exact (proj1 (page_reset_returns_to_the_initial_state refused
                  refused_reachable refused_offers_reset)).
Defined.

Lemma session_playable :
  playable (quiescent initialState) (sessionUntilCheckout ++ sessionAfterCheckout) = true.
Proof. vm_compute. reflexivity. Qed.

Lemma page_starts_at_most_one_checkout_witness :
  playable (quiescent initialState) (sessionUntilCheckout ++ sessionAfterCheckout) = true /\
  List.length (filter isCheckoutClick (sessionUntilCheckout ++ sessionAfterCheckout)) <= 1.
Proof.
  split; [ exact session_playable | ].
  exact (proj1 (page_starts_at_most_one_checkout sessionUntilCheckout
                  sessionAfterCheckout session_playable)).
Defined.

Lemma proceeded_verdict : analysis (app proceeded) = Some verdict28.
Proof. vm_compute. reflexivity. Qed.

Lemma edits_are_foreign_to_checkout :
  foreign (nextRun proceeded) [ClickBack; RangeScale 10].
Proof. unfold foreign. repeat constructor; discriminate. Qed.

Lemma checkout_sends_the_design_of_the_click_witness :
  analysis (app proceeded) = Some verdict28 /\
  foreign (nextRun proceeded) [ClickBack; RangeScale 10] /\
  location (steps proceeded
              ([ClickCheckout] ++ [ClickBack; RangeScale 10]
               ++ [SaveDesignSettled (nextRun proceeded) (Resolved "design-7")])%list)
  = Some {| attr_design_id := "design-7";
            attr_colors := String.concat ", " (suggestedColors verdict28);
            attr_scale_mm := scale (logoConfig (app proceeded)) |}.
Proof.
  split; [ exact proceeded_verdict | ].
  split; [ exact edits_are_foreign_to_checkout | ].
  exact (proj1 (proj2 (checkout_sends_the_design_of_the_click proceeded verdict28
                         [ClickBack; RangeScale 10] "design-7"
                         proceeded_verdict edits_are_foreign_to_checkout))).
Defined.

Lemma failed_save_leaves_checkout_stuck_witness :
  analysis (app proceeded) = Some verdict28 /\
  rendered (app (steps proceeded
                   [ClickCheckout; SaveDesignSettled (nextRun proceeded) (Rejected "503")]))
    ClickCheckout = false.
Proof.
  split; [ exact proceeded_verdict | ].
  exact (proj1 (proj2 (failed_save_leaves_checkout_stuck proceeded verdict28 "503"
                         proceeded_verdict))).
Defined.

Lemma failed_processing_keeps_the_previous_logo_witness :
  (size sampleFile <= MAX_UPLOAD_BYTES)%N /\
  logoConfig (app (steps customizing
     (uploadRun (nextRun customizing) sampleFile "data:raw2" (Rejected "decode")
        (Rejected "unused"))))
  = logoConfig (app customizing).
Proof.
  split; [ exact sampleFile_within_limit | ].
  exact (proj1 (failed_processing_keeps_the_previous_logo customizing sampleFile
                  "data:raw2" "decode" (Rejected "unused") sampleFile_within_limit)).
Defined.

Lemma upload_run_ends_only_when_its_calls_settle_witness :
  (size sampleFile <= MAX_UPLOAD_BYTES)%N /\
  processingStatus (app (steps (quiescent initialState)
     (uploadRun (nextRun (quiescent initialState)) sampleFile "data:raw"
        (Resolved "data:logo") (Rejected "503")))) = "".
Proof.
  split; [ exact sampleFile_within_limit | ].
  exact (proj1 (proj2 (proj2
    (upload_run_ends_only_when_its_calls_settle (quiescent initialState)
       sampleFile "data:raw" "data:logo" (Resolved "data:logo") (Rejected "503")
       sampleFile_within_limit)))).
Defined.

Lemma fiveMiB_within_limit : (size fiveMiB <= MAX_UPLOAD_BYTES)%N.
Proof. vm_compute. discriminate. Qed.

Lemma file_chooser_accepts_up_to_the_limit_witness :
  (size fiveMiB <= MAX_UPLOAD_BYTES)%N /\
  size fiveMiB = MAX_UPLOAD_BYTES /\
  activeStep (app (step (quiescent initialState) (FileInputChange (Some fiveMiB)))) = Step2.
Proof.
  split; [ exact fiveMiB_within_limit | ].
  split; [ reflexivity | ].
  exact (proj1 (proj2 (file_chooser_accepts_up_to_the_limit (quiescent initialState)
                         fiveMiB fiveMiB_within_limit))).
Defined.

Lemma slider_edits_compose_per_field_witness :
  forallb isSliderEdit [RangeX 3; RangeScale 10; RangeX 5] = true /\
  activeStep (app (steps customizing [RangeX 3; RangeScale 10; RangeX 5]))
  = activeStep (app customizing) /\
  lastOf valueX [RangeX 3; RangeScale 10; RangeX 5] 0 = 5%float.
Proof.
  split; [ reflexivity | ].
  split; [ | reflexivity ].
  exact (proj1 (proj2 (slider_edits_compose_per_field [RangeX 3; RangeScale 10; RangeX 5]
                         customizing eq_refl))).
Defined.

Lemma step_switches_keep_the_design_witness :
  forallb isStepSwitch [ClickProceed; ClickBack] = true /\
  lastSwitch [ClickProceed; ClickBack] (activeStep (app customizing))
  = activeStep (app customizing) /\
  app (steps customizing [ClickProceed; ClickBack]) = app customizing.
Proof.
  assert (lastSwitch [ClickProceed; ClickBack] (activeStep (app customizing))
          = activeStep (app customizing)) as Hsame by (vm_compute; reflexivity).
  split; [ reflexivity | ].
  split; [ exact Hsame | ].
  destruct (step_switches_keep_the_design [ClickProceed; ClickBack] customizing eq_refl)
    as (_ & _ & _ & _ & _ & _ & _ & Hround).
  exact (Hround Hsame).
Defined.






